(** * ServerlessETL_DataWarehouse: the Pub/Sub-triggered ETL function

    A shallow embedding of [ETLpipeline] from
    [ETL Google Cloud Functions/main.py].  The function decodes one Pub/Sub
    message, wraps the decoded JSON object in a one-row pandas DataFrame,
    projects it onto four tables, derives aggregate features over the
    entity graph, merges them back on a synthetic key and appends the four
    tables to BigQuery; everything runs inside one [try ... except Exception]
    block whose handler only prints.

    Conventions of the embedding:
    - a cell is a JSON scalar ([value]); Python ints are [Z], Python floats
      are exact rationals ([Qc]), so NaN, the infinities and rounding are
      outside the model; JSON objects with nested values are outside the
      model too;
    - a DataFrame is a list of column labels and a list of rows aligned with
      them; the pandas row index is not represented ([reset_index(drop=True)]
      is therefore the identity);
    - Python exceptions are values of [exn]; a computation that may raise
      returns [result];
    - the BigQuery client, the float printer and the date parser are
      parameters of the development. *)

From Stdlib Require Import List String Ascii Bool ZArith QArith Qcanon Lia.
From Stdlib Require Import DecimalString Permutation.
Import ListNotations.
Open Scope string_scope.
Open Scope list_scope.

(** ** Exceptions and fallible computations *)

Inductive exn : Type :=
| KeyError (key : string)          (* dict or column lookup failed *)
| DecodeError                      (* base64 or UTF-8 decoding failed *)
| JSONDecodeError                  (* json.loads failed *)
| IndexError (msg : string)        (* the entity set rejected an index column *)
| SinkWriteError (table_id : string). (* the load job raised *)

Inductive result (A : Type) : Type :=
| Ok (a : A)
| Err (e : exn).
Arguments Ok {A} a.
Arguments Err {A} e.

Definition bind {A B : Type} (m : result A) (k : A -> result B) : result B :=
  match m with
  | Ok a => k a
  | Err e => Err e
  end.

Notation "x <- m ;; k" := (bind m (fun x => k))
  (at level 61, m at next level, right associativity).

(** ** Cells *)

Inductive value : Type :=
| VNull
| VBool (b : bool)
| VInt (z : Z)
| VFloat (q : Qc)
| VStr (s : string).

(** The number a cell denotes in Python's numeric tower ([bool] is a subtype
    of [int]); [None] for cells that are not numbers. *)
Definition num_of (v : value) : option Qc :=
  match v with
  | VBool b => Some (Q2Qc (inject_Z (if b then 1 else 0)))
  | VInt z => Some (Q2Qc (inject_Z z))
  | VFloat q => Some q
  | VNull | VStr _ => None
  end.

(** Equality of cells as pandas' hash tables see it: numbers by value, strings
    by content, missing values equal to each other. *)
Definition value_eqb (v w : value) : bool :=
  match num_of v, num_of w with
  | Some a, Some b => Qc_eq_bool a b
  | None, None =>
      match v, w with
      | VNull, VNull => true
      | VStr s, VStr t => String.eqb s t
      | _, _ => false
      end
  | _, _ => false
  end.

Fixpoint key_eqb (k1 k2 : list value) : bool :=
  match k1, k2 with
  | [], [] => true
  | v :: k1', w :: k2' => value_eqb v w && key_eqb k1' k2'
  | _, _ => false
  end.

Definition is_null (v : value) : bool :=
  match v with VNull => true | _ => false end.

(** [int] and [float] cells, the ones a numeric column is made of. *)
Definition is_number (v : value) : bool :=
  match v with VInt _ | VFloat _ => true | _ => false end.

(** ** DataFrames *)

Definition row : Type := list value.

Record DataFrame : Type := mkDF {
  columns : list string;
  rows : list row
}.

Fixpoint index_of (c : string) (cols : list string) : option nat :=
  match cols with
  | [] => None
  | c' :: cols' =>
      if String.eqb c c' then Some O
      else option_map S (index_of c cols')
  end.

(** Positions of the labels [names] among [cols]; a label that is not a column
    raises [KeyError]. *)
Fixpoint positions (names cols : list string) : result (list nat) :=
  match names with
  | [] => Ok []
  | n :: names' =>
      match index_of n cols with
      | None => Err (KeyError n)
      | Some i => ps <- positions names' cols ;; Ok (i :: ps)
      end
  end.

Definition cell (r : row) (i : nat) : value := nth i r VNull.

Definition take_cells (ps : list nat) (r : row) : list value :=
  map (cell r) ps.

(** [pd.DataFrame([data])] for a dict [data]: one row, one column per key
    of the dict. *)
Definition DataFrame_of_records (data : list (string * value)) : DataFrame :=
  {| columns := map fst data; rows := [map snd data] |}.

(** [pd.DataFrame([data])] for a [data] that is no dict (a list, a string, a
    number, [None]): one row again, under positional labels only, so that no
    column carries a string label. *)
Definition unlabelled_frame : DataFrame :=
  {| columns := []; rows := [[]] |}.

(** [df[[c1, ..., cn]]] *)
Definition select_columns (names : list string) (df : DataFrame) : result DataFrame :=
  ps <- positions names (columns df) ;;
  Ok {| columns := names; rows := map (take_cells ps) (rows df) |}.

(** [df[c]] as a list of cells. *)
Definition column (c : string) (df : DataFrame) : result (list value) :=
  match index_of c (columns df) with
  | None => Err (KeyError c)
  | Some i => Ok (map (fun r => cell r i) (rows df))
  end.

(** The rows pandas keeps under [keep='first']: a row is dropped when an
    earlier row has an equal key. *)
Fixpoint keep_first (key : row -> list value) (seen : list (list value))
    (rs : list row) : list row :=
  match rs with
  | [] => []
  | r :: rs' =>
      if existsb (key_eqb (key r)) seen then keep_first key seen rs'
      else r :: keep_first key (key r :: seen) rs'
  end.

(** [df.drop_duplicates(subset=subset)]; [df.drop_duplicates()] is the call
    with every column as the subset. *)
Definition drop_duplicates (subset : list string) (df : DataFrame) : result DataFrame :=
  ps <- positions subset (columns df) ;;
  Ok {| columns := columns df; rows := keep_first (take_cells ps) [] (rows df) |}.

Definition drop_duplicates_all (df : DataFrame) : result DataFrame :=
  drop_duplicates (columns df) df.

(** [df.reset_index(drop=True)]: the row index is not represented. *)
Definition reset_index (df : DataFrame) : DataFrame := df.

(** [df[c] = cells] for a label [c] that is not yet a column: the new column
    goes last. *)
Definition assign_column (c : string) (cells : list value) (df : DataFrame) : DataFrame :=
  {| columns := columns df ++ [c];
     rows := map (fun rc => fst rc ++ [snd rc]) (combine (rows df) cells) |}.

Fixpoint remove_nth {A : Type} (i : nat) (l : list A) : list A :=
  match l, i with
  | [], _ => []
  | _ :: l', O => l'
  | x :: l', S i' => x :: remove_nth i' l'
  end.

(** The cells of a row that do not sit under the label [c]. *)
Fixpoint drop_cells (c : string) (cols : list string) (r : row) : row :=
  match cols, r with
  | c' :: cols', v :: r' =>
      if String.eqb c c' then drop_cells c cols' r'
      else v :: drop_cells c cols' r'
  | _, _ => []
  end.

(** [df.drop(columns=[c])]: every column labelled [c] goes; a label that is
    not a column raises [KeyError]. *)
Definition drop_column (c : string) (df : DataFrame) : result DataFrame :=
  match index_of c (columns df) with
  | None => Err (KeyError c)
  | Some _ =>
      Ok {| columns := filter (fun c' => negb (String.eqb c c')) (columns df);
            rows := map (drop_cells c (columns df)) (rows df) |}
  end.

(** [df.rename(columns=mapping)] *)
Fixpoint renamed (mapping : list (string * string)) (c : string) : string :=
  match mapping with
  | [] => c
  | (old, new) :: mapping' => if String.eqb c old then new else renamed mapping' c
  end.

Definition rename_columns (mapping : list (string * string)) (df : DataFrame) : DataFrame :=
  {| columns := map (renamed mapping) (columns df); rows := rows df |}.

(** The rows of [right] whose key cell equals the key cell of the left row. *)
Definition matches (i j : nat) (right_rows : list row) (l : row) : list row :=
  filter (fun r => value_eqb (cell l i) (cell r j)) right_rows.

(** One left row of a left join: joined with every match, or padded with
    nulls when there is none. *)
Definition join_row (i j width : nat) (right_rows : list row) (l : row) : list row :=
  match matches i j right_rows l with
  | [] => [l ++ repeat VNull width]
  | ms => map (fun r => l ++ remove_nth j r) ms
  end.

(** [left.merge(right, on=key, how="left")] for frames that share no label
    but the key (pandas would suffix other shared labels; the frames merged
    by the pipeline share none). *)
Definition merge_left (key : string) (left right : DataFrame) : result DataFrame :=
  match index_of key (columns left), index_of key (columns right) with
  | Some i, Some j =>
      Ok {| columns := columns left ++ remove_nth j (columns right);
            rows := flat_map (join_row i j (List.length (columns right) - 1) (rows right))
                             (rows left) |}
  | _, _ => Err (KeyError key)
  end.

(** ** The invocation: event, log and warehouse *)

(** A Pub/Sub event, told apart by what lines 19-21 make of it:
    [event['data']] is missing; it is present but [b64decode(...).decode]
    raises; it decodes to [text] but [json.loads] raises; it decodes to
    [text], which parses to the flat JSON object [data]; it decodes to
    [text], which parses to a JSON value that is not an object. *)
Inductive event : Type :=
| NoData
| BadBase64
| BadJson (text : string)
| Payload (text : string) (data : list (string * value))
| NotAnObject (text : string).

(** The frame of line 24, for the events that get that far. *)
Definition decoded_frame (ev : event) : option DataFrame :=
  match ev with
  | Payload _ data => Some (DataFrame_of_records data)
  | NotAnObject _ => Some unlabelled_frame
  | NoData | BadBase64 | BadJson _ => None
  end.

Inductive log_entry : Type :=
| LogDecoded (text : string)     (* "Decoded Pub/Sub message: ..." *)
| LogLoaded (table_id : string)  (* "Data successfully loaded into BigQuery table: ..." *)
| LogError (e : exn).            (* "Error processing message: ..." *)

(** What an invocation leaves behind: the lines printed and the tables
    appended to the warehouse, oldest first. *)
Record state : Type := mkState {
  log : list log_entry;
  writes : list (string * DataFrame)
}.

Definition initial : state := {| log := []; writes := [] |}.

Definition print (l : log_entry) (st : state) : state :=
  {| log := log st ++ [l]; writes := writes st |}.

(** How a Python call ends. *)
Inductive outcome : Type :=
| Returned
| Raised (e : exn).

(** BigQuery dataset *)
Definition DATAWAREHOUSE : string := "data-warehouse-441704.Ecommerce_DW".

Record tables : Type := mkTables {
  customers_df : DataFrame;
  products_df : DataFrame;
  orders_df : DataFrame;
  orderDetails_df : DataFrame
}.

(** A calendar date as the feature engine sees it. *)
Record date : Type := mkDate { year : Z; month : Z; day : Z }.

Inductive ltype : Type := Numeric | Datetime | Other.

Inductive agg : Type := SUM | MEAN | MAX.

Inductive date_part : Type := MONTH | YEAR.

Definition agg_name (a : agg) : string :=
  match a with SUM => "SUM" | MEAN => "MEAN" | MAX => "MAX" end.

Definition date_part_name (p : date_part) : string :=
  match p with MONTH => "MONTH" | YEAR => "YEAR" end.

(** A dataframe registered in the entity set under a name, with its index
    column. *)
Record entity : Type := mkEntity {
  e_name : string;
  e_df : DataFrame;
  e_index : string
}.

(** (parent dataframe, parent column, child dataframe, child column) *)
Record relationship : Type := mkRel {
  r_parent : string;
  r_parent_col : string;
  r_child : string;
  r_child_col : string
}.

Record EntitySet : Type := mkES {
  es_id : string;
  dataframes : list entity;
  relationships : list relationship
}.

(** A relationship into the target, resolved against the entity set: the
    parent entity and the positions of the two key columns. *)
Record link : Type := mkLink {
  l_parent : entity;
  l_parent_key : nat;
  l_child_key : nat
}.

Inductive feature : Type :=
| FCount (l : link) (child : string)
| FAgg (l : link) (a : agg) (child attr : string) (pos : nat)
| FDatePart (l : link) (p : date_part) (attr : string) (pos : nat).

Definition feature_link (f : feature) : link :=
  match f with
  | FCount l _ | FAgg l _ _ _ _ | FDatePart l _ _ _ => l
  end.

(** [<Ancestor>.<AGG>(<Descendant>.<Attribute>)], or
    [<Ancestor>.<PART>(<Attribute>)] for a decomposition. *)
Definition feature_name (f : feature) : string :=
  (match f with
   | FCount l child =>
       e_name (l_parent l) ++ ".COUNT(" ++ child ++ ")"
   | FAgg l a child attr _ =>
       e_name (l_parent l) ++ "." ++ agg_name a ++ "(" ++ child ++ "." ++ attr ++ ")"
   | FDatePart l p attr _ =>
       e_name (l_parent l) ++ "." ++ date_part_name p ++ "(" ++ attr ++ ")"
   end)%string.

Fixpoint map_result {A B : Type} (f : A -> result B) (l : list A) : result (list B) :=
  match l with
  | [] => Ok []
  | a :: l' => b <- f a ;; bs <- map_result f l' ;; Ok (b :: bs)
  end.

Definition qc_of_nat (n : nat) : Qc := Q2Qc (inject_Z (Z.of_nat n)).

Definition qc_max (a b : Qc) : Qc :=
  match a ?= b with Lt => b | _ => a end.

(** The numbers among the cells; missing values are skipped. *)
Fixpoint numbers (cells : list value) : list Qc :=
  match cells with
  | [] => []
  | v :: cells' =>
      match num_of v with
      | Some q => q :: numbers cells'
      | None => numbers cells'
      end
  end.

Definition qc_sum (qs : list Qc) : Qc := fold_right Qcplus (Q2Qc 0) qs.

Fixpoint distinct (keys : list value) : bool :=
  match keys with
  | [] => true
  | k :: keys' => negb (existsb (value_eqb k) keys') && distinct keys'
  end.

Fixpoint enumerate {A : Type} (n : nat) (l : list A) : list (A * nat) :=
  match l with
  | [] => []
  | a :: l' => (a, n) :: enumerate (S n) l'
  end.

Definition ltype_eqb (s t : ltype) : bool :=
  match s, t with
  | Numeric, Numeric | Datetime, Datetime | Other, Other => true
  | _, _ => false
  end.

Fixpoint find_entity_in (name : string) (es : list entity) : result entity :=
  match es with
  | [] => Err (KeyError name)
  | e :: es' => if String.eqb name (e_name e) then Ok e else find_entity_in name es'
  end.

Definition find_entity (name : string) (es : EntitySet) : result entity :=
  find_entity_in name (dataframes es).

(** Computations that print, write to the warehouse and may raise. *)
Definition M (A : Type) : Type := state -> result A * state.

Definition retM {A : Type} (a : A) : M A := fun st => (Ok a, st).

Definition raiseM {A : Type} (e : exn) : M A := fun st => (Err e, st).

Definition bindM {A B : Type} (m : M A) (k : A -> M B) : M B :=
  fun st =>
    match m st with
    | (Ok a, st') => k a st'
    | (Err e, st') => (Err e, st')
    end.

Definition liftM {A : Type} (r : result A) : M A := fun st => (r, st).

Definition printM (l : log_entry) : M unit := fun st => (Ok tt, print l st).

Notation "x <~ m ;; k" := (bindM m (fun x => k))
  (at level 61, m at next level, right associativity).

Section Pipeline.

(** [repr] of a Python float. *)
Variable float_repr : Qc -> string.

(** The date parser of the feature engine: the date a string cell denotes,
    if it denotes one. *)
Variable parse_date : string -> option date.

(** The warehouse client: whether
    [client.load_table_from_dataframe(df, table_id, ...).result()] returns
    ([true]) or raises ([false]). *)
Variable sink : string -> DataFrame -> bool.

(** [str(v)] *)
Definition py_str (v : value) : string :=
  match v with
  | VNull => "None"
  | VBool true => "True"
  | VBool false => "False"
  | VInt z => NilZero.string_of_int (Z.to_int z)
  | VFloat q => float_repr q
  | VStr s => s
  end.

(** [series.astype(str)] *)
Definition astype_str (cells : list value) : list string := map py_str cells.

(** The synthetic key of one row: [str(order) + "_" + str(product)]. *)
Definition join_key (order_id product_id : value) : string :=
  (py_str order_id ++ "_" ++ py_str product_id)%string.

(** [a.astype(str) + "_" + b.astype(str)], cell by cell. *)
Definition OrderDetail_ID (order_ids product_ids : list value) : list value :=
  map (fun sp => VStr (fst sp ++ "_" ++ snd sp)%string)
      (combine (astype_str order_ids) (astype_str product_ids)).

(** *** The entity set *)

(** Modelled from the spec: [es.add_dataframe(dataframe=df,
    dataframe_name=name, index=index)] (featuretools is not part of the
    sources).  Section 3 has uniqueness enforced on the declared key of every
    entity: the index column has to exist and to be unique; as in the library,
    it may hold no missing value either. *)
Definition add_dataframe (df : DataFrame) (name index : string) (es : EntitySet)
  : result EntitySet :=
  keys <- column index df ;;
  if negb (distinct keys) then Err (IndexError "Index column must be unique")
  else if existsb is_null keys then Err (IndexError "Index contains null values")
  else Ok {| es_id := es_id es;
             dataframes := dataframes es ++ [mkEntity name df index];
             relationships := relationships es |}.

(** Modelled from the spec: the validation of one relationship (section
    4.2): both dataframes are registered and both key columns exist.  A
    child whose key has no parent row is not an error (null-joinable). *)
Definition check_relationship (es : EntitySet) (rel : relationship) : result unit :=
  p <- find_entity (r_parent rel) es ;;
  c <- find_entity (r_child rel) es ;;
  _ <- positions [r_parent_col rel] (columns (e_df p)) ;;
  _ <- positions [r_child_col rel] (columns (e_df c)) ;;
  Ok tt.

(** Modelled from the spec: [es.add_relationships(rels)]. *)
Definition add_relationships (rels : list relationship) (es : EntitySet)
  : result EntitySet :=
  _ <- map_result (check_relationship es) rels ;;
  Ok {| es_id := es_id es;
        dataframes := dataframes es;
        relationships := relationships es ++ rels |}.

(** *** The feature engine *)

(** A string cell that the engine's parser reads as a date. *)
Definition is_date (v : value) : bool :=
  match v with
  | VStr s => match parse_date s with Some _ => true | None => false end
  | _ => false
  end.

(** Modelled from the spec: the type inference of the feature engine
    (featuretools and woodwork are not part of the sources).  Section 4.3
    speaks of the numeric and the date attributes of an entity; a column is
    taken as numeric when its cells that are present are all numbers, as a
    date column when they all parse as dates, and a column with no cell
    present has neither type. *)
Definition infer (cells : list value) : ltype :=
  match filter (fun v => negb (is_null v)) cells with
  | [] => Other
  | present =>
      if forallb is_number present then Numeric
      else if forallb is_date present then Datetime
      else Other
  end.

(** The cells of the column at position [pos]. *)
Definition column_at (df : DataFrame) (pos : nat) : list value :=
  map (fun r => cell r pos) (rows df).

(** The columns of [df] of logical type [t], with their positions, leaving
    out the key columns at the positions [skip]. *)
Definition typed_attributes (t : ltype) (skip : list nat) (df : DataFrame)
  : list (string * nat) :=
  filter (fun cp => negb (existsb (Nat.eqb (snd cp)) skip)
                    && ltype_eqb (infer (column_at df (snd cp))) t)
         (enumerate 0 (columns df)).

(** The parent entity and the key positions of a relationship into
    [target]. *)
Definition resolve (es : EntitySet) (target : entity) (rel : relationship)
  : result link :=
  p <- find_entity (r_parent rel) es ;;
  match index_of (r_parent_col rel) (columns (e_df p)),
        index_of (r_child_col rel) (columns (e_df target)) with
  | Some i, Some j => Ok (mkLink p i j)
  | None, _ => Err (KeyError (r_parent_col rel))
  | _, None => Err (KeyError (r_child_col rel))
  end.

(** Modelled from the spec: the features of one ancestor (section 4.3):
    COUNT of its descendant rows; SUM, MEAN and MAX of every numeric
    attribute of the descendant; MONTH and YEAR of every date attribute of
    the ancestor itself. *)
Definition link_features (target : entity) (numeric : list (string * nat))
    (l : link) : list feature :=
  FCount l (e_name target)
  :: flat_map (fun ap => map (fun a => FAgg l a (e_name target) (fst ap) (snd ap))
                             [SUM; MEAN; MAX]) numeric
  ++ flat_map (fun ap => map (fun p => FDatePart l p (fst ap) (snd ap))
                             [MONTH; YEAR])
              (typed_attributes Datetime [l_parent_key l] (e_df (l_parent l))).

(** Modelled from the spec: the aggregates of section 4.3 over the cells of
    the descendant rows.  Missing cells are skipped; MEAN and MAX over no
    cell are null (never a division by zero), SUM over no cell is 0. *)
Definition aggregate (a : agg) (cells : list value) : value :=
  match a, numbers cells with
  | SUM, qs => VFloat (qc_sum qs)
  | MEAN, [] => VNull
  | MEAN, qs => VFloat (qc_sum qs / qc_of_nat (List.length qs))
  | MAX, [] => VNull
  | MAX, q :: qs => VFloat (fold_left qc_max qs q)
  end.

(** Modelled from the spec: calendar decomposition of an ancestor's date
    cell; a cell that is absent (or is no date) yields null. *)
Definition date_part_of (p : date_part) (v : value) : value :=
  match v with
  | VStr s =>
      match parse_date s with
      | Some d => VInt (match p with MONTH => month d | YEAR => year d end)
      | None => VNull
      end
  | _ => VNull
  end.

(** The target rows that belong to the ancestor row [p]. *)
Definition descendants (l : link) (trows : list row) (p : row) : list row :=
  filter (fun r => value_eqb (cell r (l_child_key l)) (cell p (l_parent_key l))) trows.

(** Modelled from the spec: the value of a feature at an ancestor row. *)
Definition ancestor_value (trows : list row) (f : feature) (p : row) : value :=
  match f with
  | FCount l _ => VInt (Z.of_nat (List.length (descendants l trows p)))
  | FAgg l a _ _ pos => aggregate a (map (fun r => cell r pos) (descendants l trows p))
  | FDatePart _ part _ pos => date_part_of part (cell p pos)
  end.

(** The ancestor row a target row belongs to, if there is one. *)
Definition parent_of (l : link) (r : row) : option row :=
  find (fun p => value_eqb (cell p (l_parent_key l)) (cell r (l_child_key l)))
       (rows (e_df (l_parent l))).

(** Modelled from the spec: an ancestor's value is broadcast onto each of
    its target rows; a target row with no ancestor gets null. *)
Definition target_value (trows : list row) (f : feature) (r : row) : value :=
  match parent_of (feature_link f) r with
  | Some p => ancestor_value trows f p
  | None => VNull
  end.

(** Modelled from the spec: [ft.dfs(entityset=es, target_dataframe_name=...,
    max_depth=...)] (featuretools is not part of the sources), after section
    4.3: one row per target row, in the target's row order, carrying the
    target's index and the features of every ancestor that has a relationship
    into the target.  Every ancestor in this graph is a direct parent, so any
    depth bound of at least 1 reaches all of them.  The index of the matrix is
    kept as its first column. *)
Definition dfs (es : EntitySet) (target_dataframe_name : string) (max_depth : nat)
  : result DataFrame :=
  target <- find_entity target_dataframe_name es ;;
  match index_of (e_index target) (columns (e_df target)) with
  | None => Err (KeyError (e_index target))
  | Some idx =>
      links <- map_result (resolve es target)
                 (filter (fun rel => (1 <=? max_depth)%nat
                                     && String.eqb (r_child rel) (e_name target))
                         (relationships es)) ;;
      let numeric := typed_attributes Numeric (idx :: map l_child_key links)
                                      (e_df target) in
      let feature_defs := flat_map (link_features target numeric) links in
      let trows := rows (e_df target) in
      Ok {| columns := e_index target :: map feature_name feature_defs;
            rows := map (fun r => cell r idx
                                  :: map (fun f => target_value trows f r) feature_defs)
                        trows |}
  end.

(** *** The tables *)

Definition customer_columns : list string :=
  ["Customer ID"; "Customer Name"; "Segment"; "Country"; "City"; "State";
   "Postal Code"; "Region"].

Definition product_columns : list string :=
  ["Product ID"; "Category"; "Sub-Category"; "Product Name"].

Definition order_columns : list string :=
  ["Order ID"; "Order Date"; "Ship Date"; "Ship Mode"].

Definition orderDetail_columns : list string :=
  ["Order ID"; "Product ID"; "Customer ID"; "Sales"; "Quantity"; "Discount";
   "Profit"].

(** The four projections of lines 26-37, the last one with its synthetic
    key. *)
Definition normalize (df : DataFrame) : result tables :=
  c <- select_columns customer_columns df ;;
  c <- drop_duplicates ["Customer ID"] c ;;
  let customers_df := reset_index c in
  p <- select_columns product_columns df ;;
  p <- drop_duplicates ["Product ID"] p ;;
  let products_df := reset_index p in
  o <- select_columns order_columns df ;;
  o <- drop_duplicates_all o ;;
  let orders_df := reset_index o in
  d <- select_columns orderDetail_columns df ;;
  d <- drop_duplicates ["Order ID"; "Product ID"] d ;;
  let orderDetails_df := reset_index d in
  order_ids <- column "Order ID" orderDetails_df ;;
  product_ids <- column "Product ID" orderDetails_df ;;
  let orderDetails_df :=
    assign_column "OrderDetail ID" (OrderDetail_ID order_ids product_ids)
                  orderDetails_df in
  Ok (mkTables customers_df products_df orders_df orderDetails_df).

Definition the_relationships : list relationship :=
  [ mkRel "Customers" "Customer ID" "OrderDetails" "Customer ID";
    mkRel "Products" "Product ID" "OrderDetails" "Product ID";
    mkRel "Orders" "Order ID" "OrderDetails" "Order ID" ].

(** Lines 42-57: the entity set with its four dataframes and three
    relationships. *)
Definition build_entityset (t : tables) : result EntitySet :=
  let es := {| es_id := "Superstore"; dataframes := []; relationships := [] |} in
  es <- add_dataframe (customers_df t) "Customers" "Customer ID" es ;;
  es <- add_dataframe (products_df t) "Products" "Product ID" es ;;
  es <- add_dataframe (orders_df t) "Orders" "Order ID" es ;;
  es <- add_dataframe (orderDetails_df t) "OrderDetails" "OrderDetail ID" es ;;
  add_relationships the_relationships es.

Definition selected_features : list string :=
  [ "Customers.COUNT(OrderDetails)";
    "Products.COUNT(OrderDetails)"; "Products.MAX(OrderDetails.Profit)";
    "Products.MEAN(OrderDetails.Discount)";
    "Products.SUM(OrderDetails.Quantity)"; "Products.SUM(OrderDetails.Sales)";
    "Orders.COUNT(OrderDetails)"; "Orders.MAX(OrderDetails.Quantity)";
    "Orders.MEAN(OrderDetails.Profit)"; "Orders.SUM(OrderDetails.Sales)";
    "Orders.MONTH(Order Date)"; "Orders.YEAR(Order Date)" ].

Definition feature_renaming : list (string * string) :=
  [ ("Customers.COUNT(OrderDetails)", "Customer_Order_Count");
    ("Products.COUNT(OrderDetails)", "Product_Order_Count");
    ("Products.MAX(OrderDetails.Profit)", "Product_Max_Profit");
    ("Products.MEAN(OrderDetails.Discount)", "Product_Mean_Discount");
    ("Products.SUM(OrderDetails.Quantity)", "Product_Total_Quantity");
    ("Products.SUM(OrderDetails.Sales)", "Product_Total_Sales");
    ("Orders.COUNT(OrderDetails)", "Order_Item_Count");
    ("Orders.MAX(OrderDetails.Quantity)", "Order_Max_Quantity");
    ("Orders.MEAN(OrderDetails.Profit)", "Order_Mean_Profit");
    ("Orders.SUM(OrderDetails.Sales)", "Order_Total_Sales");
    ("Orders.MONTH(Order Date)", "Order_Month");
    ("Orders.YEAR(Order Date)", "Order_Year") ].

Definition feature_columns : list string :=
  map (renamed feature_renaming) selected_features.

(** Lines 60-90: the feature matrix, cut down to the twelve selected
    features and renamed.  The matrix keeps its index through the selection,
    here as the column [OrderDetail ID]. *)
Definition select_features (es : EntitySet) : result DataFrame :=
  feature_matrix <- dfs es "OrderDetails" 2 ;;
  selected_features_df <-
    select_columns ("OrderDetail ID" :: selected_features) feature_matrix ;;
  Ok (rename_columns feature_renaming selected_features_df).

(** Lines 93-99: the left merge on the synthetic key, which is then
    dropped. *)
Definition enrich (orderDetails_df selected_features_df : DataFrame)
  : result DataFrame :=
  merged <- merge_left "OrderDetail ID" orderDetails_df selected_features_df ;;
  drop_column "OrderDetail ID" merged.

(** Lines 26-99 on a DataFrame [df]: the four tables as they are handed to
    the warehouse. *)
Definition transform (df : DataFrame) : result tables :=
  t <- normalize df ;;
  es <- build_entityset t ;;
  selected_features_df <- select_features es ;;
  enriched <- enrich (orderDetails_df t) selected_features_df ;;
  Ok (mkTables (customers_df t) (products_df t) (orders_df t) enriched).

(** *** Loading and the entry point *)

Definition load_to_bigquery (df : DataFrame) (table_name : string) : M unit :=
  fun st =>
    let table_id := (DATAWAREHOUSE ++ "." ++ table_name)%string in
    if sink table_id df
    then (Ok tt, print (LogLoaded table_id)
                       {| log := log st; writes := writes st ++ [(table_id, df)] |})
    else (Err (SinkWriteError table_id), st).

Definition load_tables (t : tables) : M unit :=
  _ <~ load_to_bigquery (customers_df t) "Customers" ;;
  _ <~ load_to_bigquery (products_df t) "Products" ;;
  _ <~ load_to_bigquery (orders_df t) "Orders" ;;
  load_to_bigquery (orderDetails_df t) "OrderDetails".

(** Lines 24-112 on the frame [df] of line 24. *)
Definition process (df : DataFrame) : M unit :=
  t <~ liftM (transform df) ;;
  load_tables t.

(** The body of the [try] block. *)
Definition try_block (ev : event) : M unit :=
  match ev with
  | NoData => raiseM (KeyError "data")
  | BadBase64 => raiseM DecodeError
  | BadJson text =>
      _ <~ printM (LogDecoded text) ;;
      raiseM JSONDecodeError
  | Payload text data =>
      _ <~ printM (LogDecoded text) ;;
      process (DataFrame_of_records data)
  | NotAnObject text =>
      _ <~ printM (LogDecoded text) ;;
      process unlabelled_frame
  end.

(** [ETLpipeline(event, context)]: the [except Exception] handler prints the
    error and the function falls off its end, so the call returns [None]
    whatever happened inside the [try] block. *)
Definition ETLpipeline (ev : event) (st : state) : outcome * state :=
  match try_block ev st with
  | (Ok _, st') => (Returned, st')
  | (Err e, st') => (Returned, print (LogError e) st')
  end.

End Pipeline.

(** ** Vocabulary of the statements *)

(** The twenty fields of an inbound record. *)
Definition required_fields : list string :=
  ["Customer ID"; "Customer Name"; "Segment"; "Country"; "City"; "State";
   "Postal Code"; "Region"; "Product ID"; "Category"; "Sub-Category";
   "Product Name"; "Order ID"; "Order Date"; "Ship Date"; "Ship Mode";
   "Sales"; "Quantity"; "Discount"; "Profit"].

(** [data.get(name)]: the value of a field of the record. *)
Fixpoint field (name : string) (data : list (string * value)) : option value :=
  match data with
  | [] => None
  | (k, v) :: data' => if String.eqb name k then Some v else field name data'
  end.

(** Whether the character [a] occurs in [s]. *)
Fixpoint occurs (a : ascii) (s : string) : bool :=
  match s with
  | "" => false
  | String b s' => Ascii.eqb a b || occurs a s'
  end.

(** A record as the transformation needs it: the twenty fields are there,
    the three identifiers are present, the four measures are numbers and the
    order date is a string that [parse] reads as a date. *)
Definition well_formed (parse : string -> option date)
    (data : list (string * value)) : bool :=
  forallb (fun c => existsb (String.eqb c) (map fst data)) required_fields
  && forallb (fun c => match field c data with
                       | Some v => negb (is_null v)
                       | None => false
                       end)
             ["Customer ID"; "Product ID"; "Order ID"]
  && forallb (fun c => match field c data with
                       | Some v => is_number v
                       | None => false
                       end)
             ["Sales"; "Quantity"; "Discount"; "Profit"]
  && match field "Order Date" data with
     | Some (VStr s) => match parse s with Some _ => true | None => false end
     | _ => false
     end.

(** The fully-qualified names of the four tables, in the order of the loads. *)
Definition table_ids : list string :=
  map (fun name => (DATAWAREHOUSE ++ "." ++ name)%string)
      ["Customers"; "Products"; "Orders"; "OrderDetails"].

(** The entity set that lines 42-57 build from the four tables, when every
    registration goes through. *)
Definition entityset_of (t : tables) : EntitySet :=
  {| es_id := "Superstore";
     dataframes :=
       [ mkEntity "Customers" (customers_df t) "Customer ID";
         mkEntity "Products" (products_df t) "Product ID";
         mkEntity "Orders" (orders_df t) "Order ID";
         mkEntity "OrderDetails" (orderDetails_df t) "OrderDetail ID" ];
     relationships := the_relationships |}.

(** ** Concrete collaborators and records, for the examples *)

Fixpoint frac_digits (fuel : nat) (r d : Z) : string :=
  match fuel with
  | O => ""
  | S fuel' =>
      if (r =? 0)%Z then ""
      else String (ascii_of_nat (48 + Z.to_nat (10 * r / d)))
                  (frac_digits fuel' ((10 * r) mod d)%Z d)
  end.

(** [repr] on floats with a short decimal expansion: ["261.96"], ["2.0"]. *)
Definition decimal_repr (q : Qc) : string :=
  let n := Qnum q in
  let d := Zpos (Qden q) in
  let a := Z.abs n in
  ((if (n <? 0)%Z then "-" else "")
   ++ NilZero.string_of_int (Z.to_int (a / d)) ++ "."
   ++ match frac_digits 17 (a mod d)%Z d with
      | "" => "0"
      | s => s
      end)%string.

Definition digit (a : ascii) : option Z :=
  let n := nat_of_ascii a in
  if ((48 <=? n) && (n <=? 57))%nat then Some (Z.of_nat (n - 48)) else None.

Fixpoint digits (acc : Z) (s : string) : option Z :=
  match s with
  | "" => Some acc
  | String a s' =>
      match digit a with
      | Some k => digits (10 * acc + k) s'
      | None => None
      end
  end.

(** Dates written [YYYY-MM-DD]. *)
Definition iso_date (s : string) : option date :=
  if ((String.length s =? 10)%nat
      && String.eqb (substring 4 1 s) "-" && String.eqb (substring 7 1 s) "-")%bool
  then
    match digits 0 (substring 0 4 s), digits 0 (substring 5 2 s),
          digits 0 (substring 8 2 s) with
    | Some y, Some m, Some d =>
        if ((1 <=? m) && (m <=? 12) && (1 <=? d) && (d <=? 31))%Z
        then Some (mkDate y m d) else None
    | _, _, _ => None
    end
  else None.

(** A warehouse that takes every load, and one that refuses one table. *)
Definition accepting_sink (table_id : string) (df : DataFrame) : bool := true.

Definition refusing_sink (refused : string) (table_id : string) (df : DataFrame) : bool :=
  negb (String.eqb table_id refused).

Definition customer_fields (id name : string) : list (string * value) :=
  [ ("Customer ID", VStr id); ("Customer Name", VStr name);
    ("Segment", VStr "Consumer"); ("Country", VStr "United States");
    ("City", VStr "Henderson"); ("State", VStr "Kentucky");
    ("Postal Code", VInt 42420); ("Region", VStr "South") ].

Definition product_fields (id : string) : list (string * value) :=
  [ ("Product ID", VStr id); ("Category", VStr "Furniture");
    ("Sub-Category", VStr "Bookcases");
    ("Product Name", VStr "Bush Somerset Collection Bookcase") ].

Definition order_fields (id : string) : list (string * value) :=
  [ ("Order ID", VStr id); ("Order Date", VStr "2024-03-15");
    ("Ship Date", VStr "2024-03-18"); ("Ship Mode", VStr "Second Class") ].

Definition sample_record : list (string * value) :=
  customer_fields "CG-12520" "Claire Gute" ++ product_fields "FUR-BO-10001798"
  ++ order_fields "CA-2016-152156"
  ++ [ ("Sales", VFloat (Q2Qc (26196 # 100))); ("Quantity", VInt 2);
       ("Discount", VInt 0); ("Profit", VFloat (Q2Qc (419136 # 10000))) ].

(** The sample record without its "Profit" field. *)
Definition record_without_profit : list (string * value) :=
  removelast sample_record.

(** The sample record with a number where the ship mode should be. *)
Definition record_with_numeric_ship_mode : list (string * value) :=
  map (fun kv => if String.eqb (fst kv) "Ship Mode" then (fst kv, VInt 2) else kv)
      sample_record.

Definition measures (sales quantity : Z) : list (string * value) :=
  [ ("Sales", VInt sales); ("Quantity", VInt quantity); ("Discount", VInt 0);
    ("Profit", VInt 5) ].

(** A batch of three records in which the customer CG-12520 occurs twice,
    under two names. *)
Definition sample_batch : DataFrame :=
  {| columns := map fst sample_record;
     rows := map (map snd)
       [ customer_fields "CG-12520" "Claire Gute" ++ product_fields "P-1"
           ++ order_fields "O-1" ++ measures 10 1;
         customer_fields "DV-13045" "Darrin Van Huff" ++ product_fields "P-1"
           ++ order_fields "O-2" ++ measures 20 2;
         customer_fields "CG-12520" "C. Gute" ++ product_fields "P-2"
           ++ order_fields "O-2" ++ measures 30 3 ] |}.

Definition no_tables : tables :=
  mkTables (mkDF [] []) (mkDF [] []) (mkDF [] []) (mkDF [] []).

(** What the normalizer and the whole transformation make of the batch. *)
Definition sample_batch_normalized : tables :=
  Eval vm_compute in
    match normalize decimal_repr sample_batch with
    | Ok t => t
    | Err _ => no_tables
    end.

Definition sample_batch_transformed : tables :=
  Eval vm_compute in
    match transform decimal_repr iso_date sample_batch with
    | Ok t => t
    | Err _ => no_tables
    end.

(** What the transformation makes of the sample record. *)
Definition sample_record_transformed : tables :=
  Eval vm_compute in
    match transform decimal_repr iso_date (DataFrame_of_records sample_record) with
    | Ok t => t
    | Err _ => no_tables
    end.

Definition sample_text : string := "{...}".

Definition Orders_id : string := "data-warehouse-441704.Ecommerce_DW.Orders".

(** The state after the sample record went through, with a warehouse that
    takes everything and with one that refuses the Orders table. *)
Definition state_after_sample : state :=
  snd (ETLpipeline decimal_repr iso_date accepting_sink
                   (Payload sample_text sample_record) initial).

Definition state_after_refusal : state :=
  snd (ETLpipeline decimal_repr iso_date (refusing_sink Orders_id)
                   (Payload sample_text sample_record) initial).

(** A product that no OrderDetails row refers to, with no name. *)
Definition unsold_product : row :=
  [VStr "P-9"; VStr "Furniture"; VStr "Bookcases"; VNull].

Definition products_link : link :=
  mkLink (mkEntity "Products"
            (mkDF product_columns (unsold_product :: rows (products_df sample_batch_normalized)))
            "Product ID")
         0 1.

(** The tables that the lines "Data successfully loaded ..." of a log
    name, in the order of the lines. *)
Fixpoint loaded_ids (lines : list log_entry) : list string :=
  match lines with
  | [] => []
  | LogLoaded id :: lines' => id :: loaded_ids lines'
  | _ :: lines' => loaded_ids lines'
  end.

(** The labels under which each of the four tables is loaded. *)
Definition table_schema : list (string * list string) :=
  combine table_ids
          [customer_columns; product_columns; order_columns;
           orderDetail_columns ++ feature_columns].

(** The sample record with its fields in the reverse order and a field that
    the pipeline does not know. *)
Definition shuffled_record : list (string * value) :=
  ("Row ID", VInt 1) :: rev sample_record.

(** The sample record with a text where the profit should be. *)
Definition record_with_text_profit : list (string * value) :=
  removelast sample_record ++ [("Profit", VStr "n/a")].

(** The two ways in which a call ends: before the loads, with its error as
    the last line and nothing written, or after a transformation that went
    through, with the first [n] tables loaded. *)
Definition stopped_early (float_repr : Qc -> string)
  (parse_date : string -> option date) (ev : event) (st0 st : state) : Prop :=
  exists pre e,
    st = {| log := log st0 ++ pre ++ [LogError e]; writes := writes st0 |} /\
    loaded_ids pre = [] /\
    (forall e', ~ In (LogError e') pre) /\
    (decoded_frame ev = None
     \/ exists df, decoded_frame ev = Some df /\
                   transform float_repr parse_date df = Err e).

Definition reached_loads (float_repr : Qc -> string)
  (parse_date : string -> option date) (sink : string -> DataFrame -> bool)
  (ev : event) (st0 st : state) : Prop :=
  exists df text t n,
    decoded_frame ev = Some df /\
    transform float_repr parse_date df = Ok t /\
    (n <= 4)%nat /\
    st = {| log := log st0
                   ++ LogDecoded text :: map LogLoaded (firstn n table_ids)
                   ++ (if (n =? 4)%nat then []
                       else [LogError (SinkWriteError (nth n table_ids ""))]);
            writes := writes st0
                      ++ firstn n (combine table_ids
                                     [customers_df t; products_df t;
                                      orders_df t; orderDetails_df t]) |} /\
    ((n < 4)%nat ->
     sink (nth n table_ids "")
          (nth n [customers_df t; products_df t; orders_df t;
                  orderDetails_df t] (customers_df t)) = false).

(** * Properties *)

(** ** Equality of cells and keys *)

Lemma Qc_eq_bool_iff (a b : Qc) : Qc_eq_bool a b = true <-> a = b.
Proof.
  unfold Qc_eq_bool. destruct (Qc_eq_dec a b); split; congruence.
Qed.

Lemma value_eqb_refl (v : value) : value_eqb v v = true.
Proof.
  destruct v; unfold value_eqb; simpl;
    try (apply Qc_eq_bool_iff; reflexivity); auto using String.eqb_refl.
Qed.

Lemma value_eqb_sym (v w : value) : value_eqb v w = value_eqb w v.
Proof.
  assert (Hq : forall a b, Qc_eq_bool a b = Qc_eq_bool b a).
  { intros a b. destruct (Qc_eq_bool a b) eqn:E1, (Qc_eq_bool b a) eqn:E2; auto.
    - apply Qc_eq_bool_iff in E1. subst. rewrite (proj2 (Qc_eq_bool_iff b b) eq_refl) in E2.
      discriminate.
    - apply Qc_eq_bool_iff in E2. subst. rewrite (proj2 (Qc_eq_bool_iff a a) eq_refl) in E1.
      discriminate. }
  destruct v, w; unfold value_eqb; simpl; auto using String.eqb_sym.
Qed.

Lemma value_eqb_trans (u v w : value) :
  value_eqb u v = true -> value_eqb v w = true -> value_eqb u w = true.
Proof.
  unfold value_eqb.
  destruct (num_of u) as [a|] eqn:Hu, (num_of v) as [b|] eqn:Hv,
           (num_of w) as [c|] eqn:Hw; try discriminate.
  - rewrite !Qc_eq_bool_iff. congruence.
  - destruct u, v, w; try discriminate; auto.
    rewrite !String.eqb_eq. congruence.
Qed.

Lemma key_eqb_refl (k : list value) : key_eqb k k = true.
Proof.
  induction k; simpl; auto. now rewrite value_eqb_refl.
Qed.

Lemma key_eqb_sym (k1 k2 : list value) : key_eqb k1 k2 = key_eqb k2 k1.
Proof.
  revert k2. induction k1 as [|v k1 IH]; destruct k2 as [|w k2]; simpl; auto.
  now rewrite value_eqb_sym, IH.
Qed.

Lemma key_eqb_trans (k1 k2 k3 : list value) :
  key_eqb k1 k2 = true -> key_eqb k2 k3 = true -> key_eqb k1 k3 = true.
Proof.
  revert k2 k3. induction k1 as [|u k1 IH]; destruct k2 as [|v k2], k3 as [|w k3];
    simpl; try discriminate; auto.
  rewrite !andb_true_iff. intros [H1 H2] [H3 H4]. split.
  - eapply value_eqb_trans; eauto.
  - eapply IH; eauto.
Qed.

(** ** [keep_first] *)

Section KeepFirst.

Variable key : row -> list value.

Lemma keep_first_incl (seen : list (list value)) (rs : list row) (r : row) :
  In r (keep_first key seen rs) -> In r rs.
Proof.
  revert seen. induction rs as [|x rs IH]; simpl; intros seen H; auto.
  destruct (existsb (key_eqb (key x)) seen).
  - right. eauto.
  - destruct H as [H|H]; [now left | right; eauto].
Qed.



(** Every key of the input that was not seen before survives on some row. *)
Lemma keep_first_complete (seen : list (list value)) (rs : list row) (x : row) :
  In x rs -> existsb (key_eqb (key x)) seen = false ->
  exists r, In r (keep_first key seen rs) /\ key_eqb (key r) (key x) = true.
Proof.
  revert seen. induction rs as [|y rs IH]; simpl; intros seen Hin Hseen; [easy|].
  destruct (existsb (key_eqb (key y)) seen) eqn:E.
  - destruct Hin as [Hin|Hin]; [subst; congruence|]. eauto.
  - destruct Hin as [Hin|Hin].
    + subst. exists x. split; [now left | apply key_eqb_refl].
    + destruct (key_eqb (key x) (key y)) eqn:Exy.
      * exists y. split; [now left | now rewrite key_eqb_sym].
      * destruct (IH (key y :: seen) Hin) as (r & Hr & Hk).
        { simpl. now rewrite Exy, Hseen. }
        exists r. split; [now right | assumption].
Qed.


Lemma keep_first_single (r : row) : keep_first key [] [r] = [r].
Proof. reflexivity. Qed.

End KeepFirst.

(** ** Column lookup *)

Lemma index_of_None (c : string) (cols : list string) :
  index_of c cols = None <-> ~ In c cols.
Proof.
  induction cols as [|c' cols IH]; simpl; [tauto|].
  destruct (String.eqb_spec c c') as [->|Hne].
  - split; [discriminate | intros H; exfalso; auto].
  - destruct (index_of c cols); simpl; split; try discriminate; try tauto.
    + intros H. exfalso. apply H. right. apply Decidable.not_not.
      * unfold Decidable.decidable. destruct (in_dec string_dec c cols); auto.
      * intros Hn. apply IH in Hn. discriminate.
    + intros _ [H|H]; [congruence | now apply IH in H].
Qed.

Lemma index_of_nth_error (c : string) (cols : list string) (i : nat) :
  index_of c cols = Some i -> nth_error cols i = Some c.
Proof.
  revert i. induction cols as [|c' cols IH]; simpl; intros i H; [discriminate|].
  destruct (String.eqb_spec c c') as [->|Hne].
  - now inversion H.
  - destruct (index_of c cols) as [j|]; simpl in H; [|discriminate].
    inversion H. simpl. now apply IH.
Qed.

Lemma index_of_In (c : string) (cols : list string) (i : nat) :
  index_of c cols = Some i -> In c cols.
Proof. intros H. eapply nth_error_In, index_of_nth_error, H. Qed.

Lemma positions_Ok (names cols : list string) (ps : list nat) :
  positions names cols = Ok ps ->
  Forall2 (fun n p => index_of n cols = Some p) names ps.
Proof.
  revert ps. induction names as [|n names IH]; simpl; intros ps H.
  - inversion H. constructor.
  - destruct (index_of n cols) as [i|] eqn:Hi; [|discriminate].
    destruct (positions names cols) as [qs|e]; simpl in H; [|discriminate].
    inversion H. constructor; auto.
Qed.

Lemma positions_Err (names cols : list string) (e : exn) :
  positions names cols = Err e ->
  exists n, e = KeyError n /\ In n names /\ ~ In n cols.
Proof.
  induction names as [|n names IH]; simpl; intros H; [discriminate|].
  destruct (index_of n cols) as [i|] eqn:Hi.
  - destruct (positions names cols) as [qs|e']; simpl in H; [discriminate|].
    inversion H. subst. destruct (IH eq_refl) as (m & ? & ? & ?). eauto.
  - inversion H. exists n. rewrite <- index_of_None. auto.
Qed.

Lemma positions_incl (names cols : list string) (ps : list nat) :
  positions names cols = Ok ps -> incl names cols.
Proof.
  intros H n Hn. apply positions_Ok in H.
  induction H as [|m p names ps Hm _ IH]; [easy|].
  destruct Hn as [->|Hn]; [eapply index_of_In; eauto | auto].
Qed.


Lemma append_separator_inj (a : ascii) (s1 s2 t1 t2 : string) :
  occurs a s1 = false -> occurs a s2 = false ->
  (s1 ++ String a t1 = s2 ++ String a t2)%string ->
  s1 = s2 /\ t1 = t2.
Proof.
  revert s2. induction s1 as [|b s1 IH]; intros [|c s2]; simpl; intros H1 H2 H.
  - inversion H. auto.
  - inversion H. subst. rewrite Ascii.eqb_refl in H2. discriminate.
  - inversion H. subst. rewrite Ascii.eqb_refl in H1. discriminate.
  - apply orb_false_iff in H1, H2. inversion H. subst.
    destruct (IH s2) as [-> ->]; tauto.
Qed.

Lemma required_fields_split (c : string) :
  In c required_fields <->
  In c customer_columns \/ In c product_columns \/ In c order_columns
  \/ In c orderDetail_columns.
Proof.
  unfold required_fields, customer_columns, product_columns, order_columns,
    orderDetail_columns. simpl. tauto.
Qed.

Section Properties.

Variable float_repr : Qc -> string.
Variable parse_date : string -> option date.
Variable sink : string -> DataFrame -> bool.

(** ** The normalizer *)

(** [normalize] only fails in the four projections; the deduplications and
    the key construction work on labels that the projections have just put
    in place. *)
Lemma normalize_unfold (df : DataFrame) :
  normalize float_repr df =
  (pc <- positions customer_columns (columns df) ;;
   pp <- positions product_columns (columns df) ;;
   po <- positions order_columns (columns df) ;;
   pd <- positions orderDetail_columns (columns df) ;;
   let d := keep_first (take_cells [0; 1]%nat) [] (map (take_cells pd) (rows df)) in
   Ok {| customers_df :=
           mkDF customer_columns
                (keep_first (take_cells [0%nat]) [] (map (take_cells pc) (rows df)));
         products_df :=
           mkDF product_columns
                (keep_first (take_cells [0%nat]) [] (map (take_cells pp) (rows df)));
         orders_df :=
           mkDF order_columns
                (keep_first (take_cells [0; 1; 2; 3]%nat) []
                            (map (take_cells po) (rows df)));
         orderDetails_df :=
           assign_column "OrderDetail ID"
             (OrderDetail_ID float_repr (map (fun r => cell r 0) d)
                             (map (fun r => cell r 1) d))
             (mkDF orderDetail_columns d) |}).
Proof.
  unfold normalize, select_columns.
  destruct (positions customer_columns (columns df)) as [pc|]; [|reflexivity].
  destruct (positions product_columns (columns df)) as [pp|]; [|reflexivity].
  destruct (positions order_columns (columns df)) as [po|]; [|reflexivity].
  destruct (positions orderDetail_columns (columns df)) as [pd|]; reflexivity.
Qed.


(** ** The synthetic key *)

(** The key column is the row-wise [join_key]. *)
Lemma OrderDetail_ID_join_key (os ps : list value) :
  OrderDetail_ID float_repr os ps =
  map (fun op => VStr (join_key float_repr (fst op) (snd op))) (combine os ps).
Proof.
  unfold OrderDetail_ID, astype_str, join_key.
  revert ps. induction os as [|o os IH]; intros [|p ps]; simpl; auto.
  now rewrite IH.
Qed.

(** C4, as amended.  The key is [str(order) + "_" + str(product)] with no
    check and no escaping; for two pairs whose order IDs, as text, hold no
    underscore, equal keys force equal texts of the order IDs and of the
    product IDs. *)
Theorem join_key_injective_without_separator (o1 p1 o2 p2 : value) :
  occurs "_" (py_str float_repr o1) = false ->
  occurs "_" (py_str float_repr o2) = false ->
  join_key float_repr o1 p1 = join_key float_repr o2 p2 ->
  py_str float_repr o1 = py_str float_repr o2 /\
  py_str float_repr p1 = py_str float_repr p2.
Proof.
  unfold join_key. intros H1 H2 H.
  exact (append_separator_inj _ _ _ _ _ H1 H2 H).
Qed.

(** ** The entry point *)

Lemma load_to_bigquery_cases (df : DataFrame) (name : string) (st : state) :
  let table_id := (DATAWAREHOUSE ++ "." ++ name)%string in
  (sink table_id df = true /\
   load_to_bigquery sink df name st =
     (Ok tt, {| log := log st ++ [LogLoaded table_id];
                writes := writes st ++ [(table_id, df)] |}))
  \/ (sink table_id df = false /\
      load_to_bigquery sink df name st = (Err (SinkWriteError table_id), st)).
Proof.
  unfold load_to_bigquery. simpl.
  destruct (sink _ df); [left | right]; auto.
Qed.

(** What [load_tables] leaves behind: the tables loaded are the first [n] of
    the four, in order, each with its log line; all four exactly when it
    returns. *)
Lemma load_tables_prefix (t : tables) (st : state) :
  exists n r,
    load_tables sink t st =
      (r, {| log := log st ++ map LogLoaded (firstn n table_ids);
             writes := writes st
                       ++ firstn n (combine table_ids
                                      [customers_df t; products_df t;
                                       orders_df t; orderDetails_df t]) |})
    /\ ((n = 4%nat /\ r = Ok tt)
        \/ ((n < 4)%nat /\ exists id, r = Err (SinkWriteError id))).
Proof.
  unfold load_tables, bindM.
  destruct (load_to_bigquery_cases (customers_df t) "Customers" st)
    as [[_ ->]|[_ ->]];
    [|exists 0%nat; eexists; split;
      [simpl; rewrite !app_nil_r; destruct st; reflexivity | right; split; eauto]].
  match goal with |- context [load_to_bigquery sink (products_df t) _ ?s] =>
    destruct (load_to_bigquery_cases (products_df t) "Products" s)
      as [[_ ->]|[_ ->]] end;
    [|exists 1%nat; eexists; split; [reflexivity | right; split; eauto]].
  match goal with |- context [load_to_bigquery sink (orders_df t) _ ?s] =>
    destruct (load_to_bigquery_cases (orders_df t) "Orders" s)
      as [[_ ->]|[_ ->]] end;
    [|exists 2%nat; eexists; split;
      [simpl; rewrite <- !app_assoc; reflexivity | right; split; eauto]].
  match goal with |- context [load_to_bigquery sink (orderDetails_df t) _ ?s] =>
    destruct (load_to_bigquery_cases (orderDetails_df t) "OrderDetails" s)
      as [[_ ->]|[_ ->]] end.
  - exists 4%nat; eexists; split;
      [simpl; rewrite <- !app_assoc; reflexivity | left; auto].
  - exists 3%nat; eexists; split;
      [simpl; rewrite <- !app_assoc; reflexivity | right; split; eauto].
Qed.

(** A batch that lacks a required column stops in one of the projections of
    lines 27-36, with the [KeyError] of a missing column. *)
Lemma normalize_missing_column (df : DataFrame) (c : string) :
  In c required_fields -> ~ In c (columns df) ->
  exists c', In c' required_fields /\ ~ In c' (columns df) /\
             normalize float_repr df = Err (KeyError c').
Proof.
  intros Hc Hmiss. rewrite normalize_unfold.
  destruct (positions customer_columns (columns df)) as [pc|e] eqn:E1.
  2:{ apply positions_Err in E1. destruct E1 as (n & -> & Hn & Hm).
      exists n. rewrite required_fields_split. auto. }
  destruct (positions product_columns (columns df)) as [pp|e] eqn:E2.
  2:{ apply positions_Err in E2. destruct E2 as (n & -> & Hn & Hm).
      exists n. rewrite required_fields_split. auto. }
  destruct (positions order_columns (columns df)) as [po|e] eqn:E3.
  2:{ apply positions_Err in E3. destruct E3 as (n & -> & Hn & Hm).
      exists n. rewrite required_fields_split. auto. }
  destruct (positions orderDetail_columns (columns df)) as [pd|e] eqn:E4.
  2:{ apply positions_Err in E4. destruct E4 as (n & -> & Hn & Hm).
      exists n. rewrite required_fields_split. auto. }
  exfalso. apply Hmiss.
  apply positions_incl in E1, E2, E3, E4.
  apply required_fields_split in Hc.
  destruct Hc as [H|[H|[H|H]]]; auto.
Qed.

(** What the lines after line 24 leave behind: either the transformation
    raises and nothing is written, or the first [n] tables are loaded. *)
Lemma process_cases (df : DataFrame) (st : state) :
  (exists e, transform float_repr parse_date df = Err e /\
             process float_repr parse_date sink df st = (Err e, st))
  \/ (exists t n r,
        transform float_repr parse_date df = Ok t /\
        process float_repr parse_date sink df st =
          (r, {| log := log st ++ map LogLoaded (firstn n table_ids);
                 writes := writes st
                           ++ firstn n (combine table_ids
                                          [customers_df t; products_df t;
                                           orders_df t; orderDetails_df t]) |})
        /\ ((n = 4%nat /\ r = Ok tt)
            \/ ((n < 4)%nat /\ exists id, r = Err (SinkWriteError id)))).
Proof.
  unfold process, bindM, liftM.
  destruct (transform float_repr parse_date df) as [t|e].
  - right. destruct (load_tables_prefix t st) as (n & r & H & Hn).
    exists t, n, r. auto.
  - left. exists e. auto.
Qed.

(** An event either stops before line 24, with its error printed and nothing
    written, or it hands a frame to the lines after. *)
Lemma ETLpipeline_cases (ev : event) :
  (decoded_frame ev = None /\
   exists l e, ETLpipeline float_repr parse_date sink ev initial
               = (Returned, {| log := l ++ [LogError e]; writes := [] |}))
  \/ (exists df text,
        decoded_frame ev = Some df /\
        ETLpipeline float_repr parse_date sink ev initial
        = match process float_repr parse_date sink df
                  (print (LogDecoded text) initial) with
          | (Ok _, st') => (Returned, st')
          | (Err e, st') => (Returned, print (LogError e) st')
          end).
Proof.
  destruct ev as [| |text|text data|text].
  - left. split; [reflexivity|]. now exists [], (KeyError "data").
  - left. split; [reflexivity|]. now exists [], DecodeError.
  - left. split; [reflexivity|]. now exists [LogDecoded text], JSONDecodeError.
  - right. exists (DataFrame_of_records data), text. split; reflexivity.
  - right. exists unlabelled_frame, text. split; reflexivity.
Qed.

(** C1, as amended.  When one of the four table writes of an invocation did
    not occur, the error was caught and its diagnostic is the last line
    printed, the call returns normally all the same (as it does after four
    writes), and the writes made before the error stay in the warehouse:
    they are the first tables of Customers, Products, Orders, OrderDetails. *)
Theorem ETLpipeline_swallows_errors (ev : event) (o : outcome) (st : state) :
  ETLpipeline float_repr parse_date sink ev initial = (o, st) ->
  (List.length (writes st) < 4)%nat ->
  o = Returned /\
  (exists l e, log st = l ++ [LogError e]) /\
  map fst (writes st) = firstn (List.length (writes st)) table_ids.
Proof.
  destruct (ETLpipeline_cases ev) as [(_ & l & e & ->)|(df & text & _ & ->)].
  - intros H _. inversion H. simpl. repeat split. now exists l, e.
  - destruct (process_cases df (print (LogDecoded text) initial))
      as [(e & _ & ->)|(t & n & r & _ & -> & Hn)].
    + intros H _. inversion H. simpl. repeat split.
      now exists [LogDecoded text], e.
    + destruct Hn as [[-> ->]|[Hn [id ->]]].
      * intros H Hlen. inversion H. subst. simpl in Hlen. lia.
      * intros H _. inversion H. subst. simpl. repeat split.
        -- exists (LogDecoded text :: map LogLoaded (firstn n table_ids)),
             (SinkWriteError id). reflexivity.
        -- destruct n as [|[|[|[|n]]]]; try reflexivity. lia.
Qed.

(** C2, as amended.  A record that lacks one of the twenty required fields
    makes a projection of lines 27-36 raise [KeyError] for a missing field;
    the handler prints it, the call returns normally and nothing has been
    written to any table.  The code checks no types. *)
Theorem missing_field_no_writes (text : string) (data : list (string * value))
    (c : string) :
  In c required_fields -> ~ In c (map fst data) ->
  exists c', In c' required_fields /\ ~ In c' (map fst data) /\
    ETLpipeline float_repr parse_date sink (Payload text data) initial =
      (Returned, {| log := [LogDecoded text; LogError (KeyError c')];
                    writes := [] |}).
Proof.
  intros Hc Hmiss.
  destruct (normalize_missing_column (DataFrame_of_records data) c Hc Hmiss)
    as (c' & Hc' & Hm' & Hn).
  exists c'. repeat split; auto.
  unfold ETLpipeline, try_block, process, bindM, printM, liftM, transform.
  rewrite Hn. reflexivity.
Qed.

(** ** The shape of the tables *)

Lemma normalize_Ok (df : DataFrame) (t : tables) :
  normalize float_repr df = Ok t ->
  exists pc pp po pd,
    positions customer_columns (columns df) = Ok pc /\
    positions product_columns (columns df) = Ok pp /\
    positions order_columns (columns df) = Ok po /\
    positions orderDetail_columns (columns df) = Ok pd /\
    let d := keep_first (take_cells [0; 1]%nat) [] (map (take_cells pd) (rows df)) in
    t = {| customers_df :=
             mkDF customer_columns
                  (keep_first (take_cells [0%nat]) [] (map (take_cells pc) (rows df)));
           products_df :=
             mkDF product_columns
                  (keep_first (take_cells [0%nat]) [] (map (take_cells pp) (rows df)));
           orders_df :=
             mkDF order_columns
                  (keep_first (take_cells [0; 1; 2; 3]%nat) []
                              (map (take_cells po) (rows df)));
           orderDetails_df :=
             mkDF (orderDetail_columns ++ ["OrderDetail ID"])
                  (map (fun r => r ++ [VStr (join_key float_repr (cell r 0) (cell r 1))])
                       d) |}.
Proof.
  rewrite normalize_unfold.
  destruct (positions customer_columns (columns df)) as [pc|]; [|discriminate].
  destruct (positions product_columns (columns df)) as [pp|]; [|discriminate].
  destruct (positions order_columns (columns df)) as [po|]; [|discriminate].
  destruct (positions orderDetail_columns (columns df)) as [pd|]; [|discriminate].
  simpl. intros H. inversion H; subst; clear H.
  exists pc, pp, po, pd. repeat (split; [reflexivity|]).
  f_equal. unfold assign_column. simpl. f_equal.
  rewrite OrderDetail_ID_join_key.
  induction (keep_first (take_cells [0%nat; 1%nat]) [] (map (take_cells pd) (rows df)))
    as [|r d IH]; simpl; [reflexivity|].
  now rewrite IH.
Qed.

Lemma positions_length (names cols : list string) (ps : list nat) :
  positions names cols = Ok ps -> List.length ps = List.length names.
Proof.
  intros H. apply positions_Ok in H. symmetry. eapply Forall2_length; eauto.
Qed.

(** The entity set is built exactly when the four index columns pass the
    checks of [add_dataframe]; in particular the synthetic keys are then
    pairwise different. *)
Lemma build_entityset_Ok (t : tables) (es : EntitySet) :
  build_entityset t = Ok es ->
  es = entityset_of t /\
  exists keys, column "OrderDetail ID" (orderDetails_df t) = Ok keys /\
               distinct keys = true.
Proof.
  unfold build_entityset, add_dataframe.
  destruct (column "Customer ID" (customers_df t)) as [k1|]; [|discriminate]. simpl.
  destruct (distinct k1); [|discriminate]. simpl.
  destruct (existsb is_null k1); [discriminate|]. simpl.
  destruct (column "Product ID" (products_df t)) as [k2|]; [|discriminate]. simpl.
  destruct (distinct k2); [|discriminate]. simpl.
  destruct (existsb is_null k2); [discriminate|]. simpl.
  destruct (column "Order ID" (orders_df t)) as [k3|]; [|discriminate]. simpl.
  destruct (distinct k3); [|discriminate]. simpl.
  destruct (existsb is_null k3); [discriminate|]. simpl.
  destruct (column "OrderDetail ID" (orderDetails_df t)) as [k4|]; [|discriminate].
  simpl.
  destruct (distinct k4) eqn:Hd; [|discriminate]. simpl.
  destruct (existsb is_null k4); [discriminate|]. simpl.
  unfold add_relationships.
  destruct (map_result _ the_relationships); [|discriminate]. simpl.
  intros H. inversion H. split; [reflexivity|]. eauto.
Qed.

Lemma dfs_Ok (es : EntitySet) (name : string) (depth : nat) (fm : DataFrame) :
  dfs parse_date es name depth = Ok fm ->
  exists target idx feature_defs,
    find_entity name es = Ok target /\
    index_of (e_index target) (columns (e_df target)) = Some idx /\
    fm = {| columns := e_index target :: map feature_name feature_defs;
            rows := map (fun r => cell r idx
                                  :: map (fun f => target_value parse_date
                                                     (rows (e_df target)) f r)
                                         feature_defs)
                        (rows (e_df target)) |}.
Proof.
  unfold dfs.
  destruct (find_entity name es) as [target|] eqn:Hfind; [|discriminate]. simpl.
  destruct (index_of (e_index target) (columns (e_df target))) as [idx|] eqn:Hidx;
    [|discriminate].
  destruct (map_result _ _) as [links|]; [|discriminate]. simpl.
  intros H. inversion H.
  eexists target, idx, _. split; [reflexivity|]. split; [exact Hidx|reflexivity].
Qed.

Lemma index_of_head (c : string) (cols : list string) :
  index_of c (c :: cols) = Some 0%nat.
Proof. simpl. now rewrite String.eqb_refl. Qed.

(** The selected feature frame has one row per row of the normalizer's
    OrderDetails table, in the same order: the row's synthetic key followed
    by its twelve features. *)
Lemma select_features_Ok (t : tables) (sel : DataFrame) :
  columns (orderDetails_df t) = orderDetail_columns ++ ["OrderDetail ID"] ->
  select_features parse_date (entityset_of t) = Ok sel ->
  exists g : row -> list value,
    (forall r, List.length (g r) = 12%nat) /\
    sel = {| columns := "OrderDetail ID" :: feature_columns;
             rows := map (fun r => cell r 7 :: g r) (rows (orderDetails_df t)) |}.
Proof.
  intros Hcols. unfold select_features.
  destruct (dfs parse_date (entityset_of t) "OrderDetails" 2) as [fm|] eqn:Hdfs;
    [|discriminate].
  apply dfs_Ok in Hdfs. destruct Hdfs as (target & idx & feats & Hfind & Hidx & ->).
  change (find_entity "OrderDetails" (entityset_of t))
    with (Ok (mkEntity "OrderDetails" (orderDetails_df t) "OrderDetail ID")) in Hfind.
  inversion Hfind; subst target; clear Hfind. simpl in Hidx. rewrite Hcols in Hidx.
  change (index_of "OrderDetail ID" (orderDetail_columns ++ ["OrderDetail ID"]))
    with (Some 7%nat) in Hidx.
  inversion Hidx; subst idx; clear Hidx.
  cbn [bind e_index e_df]. unfold select_columns. cbn [columns rows].
  cbn [positions]. rewrite index_of_head.
  destruct (positions selected_features _) as [ps|] eqn:Hps; [|discriminate].
  cbn [bind]. intros H. inversion H; subst; clear H.
  apply positions_length in Hps.
  exists (fun r => take_cells ps
                     (cell r 7 :: map (fun f => target_value parse_date
                                                  (rows (orderDetails_df t)) f r)
                                      feats)).
  split.
  - intros r. unfold take_cells. now rewrite length_map.
  - unfold rename_columns. cbn [columns rows]. f_equal.
    rewrite map_map. reflexivity.
Qed.

(** ** The left merge *)

Lemma flat_map_singletons {A B : Type} (f : A -> list B) (h : A -> B) (l : list A) :
  (forall a, In a l -> f a = [h a]) -> flat_map f l = map h l.
Proof.
  induction l as [|a l IH]; simpl; intros H; [reflexivity|].
  rewrite (H a) by auto. simpl. f_equal. apply IH. auto.
Qed.

Section UniqueKeys.

Variable key : row -> value.
Variable g : row -> list value.

Lemma no_match (k : value) (L : list row) :
  existsb (value_eqb k) (map key L) = false ->
  filter (fun r => value_eqb k (cell r 0)) (map (fun r => key r :: g r) L) = [].
Proof.
  induction L as [|x L IH]; simpl; [reflexivity|].
  intros H. apply orb_false_iff in H. destruct H as [Hx H].
  unfold cell at 1. simpl. rewrite Hx. auto.
Qed.

(** With pairwise different keys, a left row meets exactly its own feature
    row. *)
Lemma one_match (L : list row) (l : row) :
  distinct (map key L) = true -> In l L ->
  filter (fun r => value_eqb (key l) (cell r 0)) (map (fun r => key r :: g r) L)
  = [key l :: g l].
Proof.
  induction L as [|x L IH]; simpl; [easy|].
  rewrite andb_true_iff, negb_true_iff. intros [Hx Hd] [->|Hin];
    unfold cell at 1; simpl.
  - rewrite value_eqb_refl, no_match; auto.
  - destruct (value_eqb (key l) (key x)) eqn:E; [|auto].
    exfalso. rewrite <- not_true_iff_false in Hx. apply Hx.
    apply existsb_exists. exists (key l). split.
    + now apply in_map.
    + now rewrite value_eqb_sym.
Qed.

End UniqueKeys.

Lemma merged_row_without_key (l g : list value) :
  List.length l = 8%nat -> List.length g = 12%nat ->
  drop_cells "OrderDetail ID"
    ((orderDetail_columns ++ ["OrderDetail ID"]) ++ feature_columns) (l ++ g)
  = firstn 7 l ++ g.
Proof.
  intros Hl Hg.
  do 9 (destruct l as [|? l]; try discriminate Hl).
  do 13 (destruct g as [|? g]; try discriminate Hg).
  reflexivity.
Qed.

(** Lines 93-99 on a table whose synthetic keys are pairwise different and a
    feature frame with one row per table row: every table row comes out once,
    its key cell replaced by its twelve features. *)
Lemma enrich_Ok (L : list row) (g : row -> list value) :
  (forall l, In l L -> List.length l = 8%nat) ->
  (forall r, List.length (g r) = 12%nat) ->
  distinct (map (fun l => cell l 7) L) = true ->
  enrich {| columns := orderDetail_columns ++ ["OrderDetail ID"]; rows := L |}
         {| columns := "OrderDetail ID" :: feature_columns;
            rows := map (fun r => cell r 7 :: g r) L |}
  = Ok {| columns := orderDetail_columns ++ feature_columns;
          rows := map (fun l => firstn 7 l ++ g l) L |}.
Proof.
  intros Hlen Hg Hd. unfold enrich, merge_left. cbn [columns rows].
  change (index_of "OrderDetail ID" (orderDetail_columns ++ ["OrderDetail ID"]))
    with (Some 7%nat).
  rewrite index_of_head. cbn [bind]. unfold drop_column. cbn [columns rows].
  change (index_of "OrderDetail ID"
            ((orderDetail_columns ++ ["OrderDetail ID"])
             ++ remove_nth 0 ("OrderDetail ID" :: feature_columns)))
    with (Some 7%nat).
  rewrite (flat_map_singletons _ (fun l => l ++ g l)).
  - rewrite map_map. cbv beta iota. f_equal. f_equal.
    apply map_ext_in. intros l Hl.
    apply merged_row_without_key; auto.
  - intros l Hl. unfold join_row, matches.
    rewrite (one_match (fun l => cell l 7) g L l Hd Hl). reflexivity.
Qed.

(** The four tables that reach the warehouse: the three dimension tables of
    the normalizer as they are, and its OrderDetails rows, each once and in
    order, with the key cell replaced by twelve feature cells. *)
Lemma transform_Ok (df : DataFrame) (t' : tables) :
  transform float_repr parse_date df = Ok t' ->
  exists t g,
    normalize float_repr df = Ok t /\
    (forall r, List.length (g r) = 12%nat) /\
    (forall r, In r (rows (orderDetails_df t)) -> List.length r = 8%nat) /\
    t' = {| customers_df := customers_df t;
            products_df := products_df t;
            orders_df := orders_df t;
            orderDetails_df :=
              {| columns := orderDetail_columns ++ feature_columns;
                 rows := map (fun l => firstn 7 l ++ g l)
                             (rows (orderDetails_df t)) |} |}.
Proof.
  unfold transform.
  destruct (normalize float_repr df) as [t|] eqn:Hn; [|discriminate]. cbn [bind].
  destruct (build_entityset t) as [es|] eqn:Hes; [|discriminate]. cbn [bind].
  apply build_entityset_Ok in Hes. destruct Hes as (-> & keys & Hkeys & Hd).
  destruct (normalize_Ok df t Hn) as (pc & pp & po & pd & _ & _ & _ & Hpd & Ht).
  cbv zeta in Ht.
  set (d := keep_first (take_cells [0%nat; 1%nat]) [] (map (take_cells pd) (rows df)))
    in Ht.
  assert (Hcols : columns (orderDetails_df t)
                  = orderDetail_columns ++ ["OrderDetail ID"]) by now subst t.
  assert (Hlen : forall r, In r (rows (orderDetails_df t)) -> List.length r = 8%nat).
  { subst t. cbn [orderDetails_df rows]. intros r Hr.
    apply in_map_iff in Hr. destruct Hr as (x & <- & Hx).
    apply keep_first_incl, in_map_iff in Hx. destruct Hx as (y & <- & _).
    rewrite length_app. unfold take_cells. rewrite length_map.
    rewrite (positions_length _ _ _ Hpd). reflexivity. }
  destruct (select_features parse_date (entityset_of t)) as [sel|] eqn:Hsel;
    [|discriminate]. cbn [bind].
  destruct (select_features_Ok t sel Hcols Hsel) as (g & Hg & ->).
  assert (Hk : keys = map (fun l => cell l 7) (rows (orderDetails_df t))).
  { unfold column in Hkeys. rewrite Hcols in Hkeys.
    change (index_of "OrderDetail ID" (orderDetail_columns ++ ["OrderDetail ID"]))
      with (Some 7%nat) in Hkeys. now inversion Hkeys. }
  subst keys.
  destruct (orderDetails_df t) as [cols L] eqn:Hod. cbn [columns rows] in *.
  subst cols. rewrite (enrich_Ok L g Hlen Hg Hd). cbn [bind].
  intros H. inversion H. exists t, g. rewrite Hod. auto.
Qed.





(** ** What reaches the warehouse *)

Lemma In_firstn {A : Type} (n : nat) (l : list A) (a : A) :
  In a (firstn n l) -> In a l.
Proof.
  intros H. rewrite <- (firstn_skipn n l). apply in_or_app. now left.
Qed.

(** Only an event that hands a frame to [transform], and whose frame goes
    through it, leads to writes; what is written are tables of that
    [transform]. *)
Lemma ETLpipeline_writes (ev : event) (o : outcome) (st : state)
    (id : string) (df : DataFrame) :
  ETLpipeline float_repr parse_date sink ev initial = (o, st) ->
  In (id, df) (writes st) ->
  exists frame t,
    decoded_frame ev = Some frame /\
    transform float_repr parse_date frame = Ok t /\
    In (id, df) (combine table_ids [customers_df t; products_df t; orders_df t;
                                    orderDetails_df t]).
Proof.
  destruct (ETLpipeline_cases ev) as [(_ & l & e & ->)|(frame & text & Hf & ->)].
  - intros H. inversion H. simpl. tauto.
  - destruct (process_cases frame (print (LogDecoded text) initial))
      as [(e & _ & ->)|(t & n & r & Ht & -> & _)].
    + intros H. inversion H. simpl. tauto.
    + intros H Hin. exists frame, t.
      split; [exact Hf|]. split; [exact Ht|].
      apply (In_firstn n (combine table_ids [customers_df t; products_df t;
                                             orders_df t; orderDetails_df t])
                       (id, df)).
      destruct r; inversion H; subst o st; exact Hin.
Qed.

(** The tables of a batch that goes through [transform] carry no column
    labelled [OrderDetail ID]. *)
Lemma transform_without_key (frame : DataFrame) (t : tables) (df : DataFrame) :
  transform float_repr parse_date frame = Ok t ->
  In df [customers_df t; products_df t; orders_df t; orderDetails_df t] ->
  ~ In "OrderDetail ID" (columns df).
Proof.
  intros Ht Hin.
  apply transform_Ok in Ht. destruct Ht as (t0 & g & Hn & _ & _ & ->).
  apply normalize_Ok in Hn. destruct Hn as (pc & pp & po & pd & _ & _ & _ & _ & ->).
  apply index_of_None.
  cbn [customers_df products_df orders_df orderDetails_df] in Hin.
  destruct Hin as [<-|[<-|[<-|[<-|[]]]]]; reflexivity.
Qed.

(** Each of them has as many rows as the frame has distinct keys; for a
    frame of one row, one row. *)
Lemma transform_one_row (frame : DataFrame) (t : tables) (df : DataFrame) :
  List.length (rows frame) = 1%nat ->
  transform float_repr parse_date frame = Ok t ->
  In df [customers_df t; products_df t; orders_df t; orderDetails_df t] ->
  List.length (rows df) = 1%nat.
Proof.
  intros Hone Ht Hin.
  apply transform_Ok in Ht. destruct Ht as (t0 & g & Hn & _ & _ & ->).
  apply normalize_Ok in Hn. destruct Hn as (pc & pp & po & pd & _ & _ & _ & _ & ->).
  destruct (rows frame) as [|x [|y rs]]; try discriminate Hone.
  cbn [customers_df products_df orders_df orderDetails_df] in Hin.
  destruct Hin as [<-|[<-|[<-|[<-|[]]]]]; reflexivity.
Qed.

(** C3. No table written by an invocation has a column labelled
    [OrderDetail ID]: the label is dropped from the enriched OrderDetails
    table before the loads, and the other three tables are projections onto
    labels that do not include it. *)
Theorem join_key_never_persisted (ev : event) (o : outcome) (st : state)
    (id : string) (df : DataFrame) :
  ETLpipeline float_repr parse_date sink ev initial = (o, st) ->
  In (id, df) (writes st) ->
  ~ In "OrderDetail ID" (columns df).
Proof.
  intros H Hin.
  destruct (ETLpipeline_writes ev o st id df H Hin) as (frame & t & _ & Ht & Hw).
  apply in_combine_r in Hw.
  exact (transform_without_key frame t df Ht Hw).
Qed.

Lemma decoded_frame_one_row (ev : event) (frame : DataFrame) :
  decoded_frame ev = Some frame -> List.length (rows frame) = 1%nat.
Proof.
  destruct ev; simpl; intros H; inversion H; reflexivity.
Qed.

(** C9. An invocation works on one record: the frame built at line 24 has
    exactly one row, dropping duplicates from any projection of it changes
    nothing, and every table written by the invocation has exactly one
    row. *)
Theorem single_record_invocation (ev : event) (o : outcome) (st : state) :
  ETLpipeline float_repr parse_date sink ev initial = (o, st) ->
  (forall id df, In (id, df) (writes st) -> List.length (rows df) = 1%nat) /\
  (forall frame, decoded_frame ev = Some frame ->
     List.length (rows frame) = 1%nat /\
     forall names subset c c',
       select_columns names frame = Ok c ->
       drop_duplicates subset c = Ok c' -> c' = c).
Proof.
  intros H. split.
  - intros id df Hin.
    destruct (ETLpipeline_writes ev o st id df H Hin) as (frame & t & Hf & Ht & Hw).
    apply in_combine_r in Hw.
    exact (transform_one_row frame t df (decoded_frame_one_row ev frame Hf) Ht Hw).
  - intros frame Hf. apply decoded_frame_one_row in Hf. split; [exact Hf|].
    intros names subset c c'. unfold select_columns.
    destruct (positions names _) as [ps|]; [|discriminate]. cbn [bind].
    intros Hc. inversion Hc; subst c; clear Hc.
    unfold drop_duplicates.
    destruct (positions subset _) as [qs|]; [|discriminate]. cbn [bind columns rows].
    destruct (rows frame) as [|x [|y rs]]; try discriminate Hf.
    intros Hc. inversion Hc. reflexivity.
Qed.

(** ** The feature engine *)

(** C7. An ancestor row that owns no target row gets a null MEAN (and a COUNT
    of 0) from the engine instead of an error, and the month or year of an
    ancestor whose date cell is absent is null. *)
Theorem mean_of_no_descendants_is_null (trows : list row) (l : link) (p : row)
    (child attr dattr : string) (pos dpos : nat) (part : date_part) :
  descendants l trows p = [] ->
  cell p dpos = VNull ->
  ancestor_value parse_date trows (FAgg l MEAN child attr pos) p = VNull /\
  ancestor_value parse_date trows (FCount l child) p = VInt 0 /\
  ancestor_value parse_date trows (FDatePart l part dattr dpos) p = VNull.
Proof.
  intros Hd Hc. unfold ancestor_value. rewrite Hd, Hc. auto.
Qed.













(** ** One record through the pipeline *)

Lemma positions_total (names cols : list string) :
  incl names cols -> exists ps, positions names cols = Ok ps.
Proof.
  induction names as [|n names IH]; simpl; intros H; [eauto|].
  destruct (index_of n cols) as [i|] eqn:Hi.
  - destruct IH as [ps ->]; [intros x Hx; apply H; now right|]. simpl. eauto.
  - apply index_of_None in Hi. exfalso. apply Hi, H. now left.
Qed.

Lemma field_cell (data : list (string * value)) (c : string) (i : nat) :
  index_of c (map fst data) = Some i ->
  field c data = Some (cell (map snd data) i).
Proof.
  revert i. induction data as [|[k v] data IH]; simpl; intros i H; [discriminate|].
  destruct (String.eqb c k).
  - now inversion H.
  - destruct (index_of c (map fst data)) as [j|]; [|discriminate].
    inversion H. unfold cell. simpl. now apply IH.
Qed.

Lemma field_at (data : list (string * value)) (c : string) (i : nat) (v : value) :
  field c data = Some v ->
  index_of c (map fst data) = Some i ->
  cell (map snd data) i = v.
Proof.
  intros Hf Hi. apply field_cell in Hi. congruence.
Qed.

Ltac invert_Forall2 :=
  repeat match goal with
         | H : Forall2 _ (_ :: _) _ |- _ => inversion H; subst; clear H
         | H : Forall2 _ [] _ |- _ => inversion H; subst; clear H
         end.

(** The four tables of the normalizer for one record that has all its
    fields. *)
Lemma normalize_single (data : list (string * value))
    (cid pid oid odate sales qty disc profit : value) :
  (forall c, In c required_fields -> In c (map fst data)) ->
  field "Customer ID" data = Some cid ->
  field "Product ID" data = Some pid ->
  field "Order ID" data = Some oid ->
  field "Order Date" data = Some odate ->
  field "Sales" data = Some sales ->
  field "Quantity" data = Some qty ->
  field "Discount" data = Some disc ->
  field "Profit" data = Some profit ->
  exists c1 c2 c3 c4 c5 c6 c7 p1 p2 p3 sd sm,
    normalize float_repr (DataFrame_of_records data)
    = Ok {| customers_df :=
              mkDF customer_columns [[cid; c1; c2; c3; c4; c5; c6; c7]];
            products_df := mkDF product_columns [[pid; p1; p2; p3]];
            orders_df := mkDF order_columns [[oid; odate; sd; sm]];
            orderDetails_df :=
              mkDF (orderDetail_columns ++ ["OrderDetail ID"])
                   [[oid; pid; cid; sales; qty; disc; profit;
                     VStr (join_key float_repr oid pid)]] |}.
Proof.
  intros Hall Hcid Hpid Hoid Hodate Hsales Hqty Hdisc Hprofit.
  destruct (positions_total customer_columns (map fst data)) as [pc Hpc].
  { intros c Hc. apply Hall, required_fields_split. auto. }
  destruct (positions_total product_columns (map fst data)) as [pp Hpp].
  { intros c Hc. apply Hall, required_fields_split. auto. }
  destruct (positions_total order_columns (map fst data)) as [po Hpo].
  { intros c Hc. apply Hall, required_fields_split. auto. }
  destruct (positions_total orderDetail_columns (map fst data)) as [pd Hpd].
  { intros c Hc. apply Hall, required_fields_split. auto. }
  rewrite normalize_unfold. cbn [DataFrame_of_records columns rows].
  rewrite Hpc, Hpp, Hpo, Hpd. cbn [bind].
  apply positions_Ok in Hpc, Hpp, Hpo, Hpd.
  unfold customer_columns, product_columns, order_columns, orderDetail_columns
    in Hpc, Hpp, Hpo, Hpd.
  invert_Forall2.
  repeat match goal with
         | Hf : field ?c data = Some ?v, Hi : index_of ?c (map fst data) = Some ?i
           |- _ => pose proof (field_at data c i v Hf Hi); clear Hi
         end.
  cbv zeta. cbn [map take_cells keep_first existsb].
  repeat match goal with H : cell _ _ = _ |- _ => rewrite H end.
  cbn [cell nth app].
  do 12 eexists. reflexivity.
Qed.

Lemma infer_number (v : value) : is_number v = true -> infer parse_date [v] = Numeric.
Proof. destruct v; try discriminate; reflexivity. Qed.

Lemma infer_date (s : string) (d0 : date) :
  parse_date s = Some d0 -> infer parse_date [VStr s] = Datetime.
Proof. intros H. unfold infer. simpl. now rewrite H. Qed.

Lemma find_app {A : Type} (p : A -> bool) (l1 l2 : list A) :
  find p (l1 ++ l2)
  = match find p l1 with Some x => Some x | None => find p l2 end.
Proof.
  induction l1 as [|a l1 IH]; simpl; [reflexivity|]. now destruct (p a).
Qed.

Lemma find_none_all {A : Type} (p : A -> bool) (l : list A) :
  (forall x, In x l -> p x = false) -> find p l = None.
Proof.
  induction l as [|a l IH]; simpl; intros H; [reflexivity|].
  rewrite (H a) by auto. auto.
Qed.

Lemma link_features_link (tgt : entity) (num : list (string * nat)) (l : link)
    (f : feature) :
  In f (link_features parse_date tgt num l) -> feature_link f = l.
Proof.
  unfold link_features. intros [<-|H]; [reflexivity|].
  apply in_app_or in H. destruct H as [H|H];
    apply in_flat_map in H; destruct H as (ap & _ & H);
    apply in_map_iff in H; destruct H as (x & <- & _); reflexivity.
Qed.

Lemma feature_name_parent (f : feature) :
  exists rest,
    feature_name f = (e_name (l_parent (feature_link f)) ++ rest)%string.
Proof. destruct f; simpl; eexists; reflexivity. Qed.

(** A name that starts with another letter than the ancestor's name is none
    of the ancestor's features. *)
Lemma find_other_ancestor (tgt : entity) (num : list (string * nat)) (l : link)
    (a b : ascii) (s n : string) :
  e_name (l_parent l) = String a s -> Ascii.eqb b a = false ->
  find (fun f => String.eqb (String b n) (feature_name f))
       (link_features parse_date tgt num l) = None.
Proof.
  intros Hname Hab. apply find_none_all. intros f Hf.
  apply link_features_link in Hf.
  destruct (feature_name_parent f) as [rest ->]. rewrite Hf, Hname.
  simpl. now rewrite Hab.
Qed.

Lemma index_of_find (n : string) (defs : list feature) (f : feature) :
  find (fun f' => String.eqb n (feature_name f')) defs = Some f ->
  exists i, index_of n (map feature_name defs) = Some i /\
            forall h : feature -> value, cell (map h defs) i = h f.
Proof.
  induction defs as [|f0 defs IH]; simpl; [discriminate|].
  destruct (String.eqb n (feature_name f0)).
  - intros H. inversion H. subst. exists 0%nat. auto.
  - intros H. destruct (IH H) as (i & -> & Hi). exists (S i). auto.
Qed.

Lemma positions_features (names : list string) (fs defs : list feature)
    (key : string) :
  Forall2 (fun n f => String.eqb n key = false /\
                      find (fun f' => String.eqb n (feature_name f')) defs = Some f)
          names fs ->
  exists ps,
    positions names (key :: map feature_name defs) = Ok ps /\
    forall (h : feature -> value) (k : value),
      take_cells ps (k :: map h defs) = map h fs.
Proof.
  induction 1 as [|n f names fs [Hk Hf] _ (ps & Hps & Hcells)].
  - exists []. auto.
  - destruct (index_of_find n defs f Hf) as (i & Hi & Hc).
    exists (S i :: ps). split.
    + cbn [positions index_of]. rewrite Hk, Hi, Hps. reflexivity.
    + intros h k. cbn [take_cells map]. f_equal; [apply Hc | apply Hcells].
Qed.

Lemma Qcdiv_one (x : Qc) : (x / qc_of_nat 1)%Qc = x.
Proof.
  unfold Qcdiv.
  replace (/ qc_of_nat 1)%Qc with 1%Qc by (apply Qc_is_canon; reflexivity).
  apply Qcmult_1_r.
Qed.

(** SUM, MEAN and MAX over the one cell of a numeric column give back the
    number in that cell. *)
Lemma aggregate_single (a : agg) (v : value) :
  is_number v = true -> value_eqb (aggregate a [v]) v = true.
Proof.
  destruct v; try discriminate; intros _; destruct a;
    unfold aggregate, value_eqb;
    cbn [numbers num_of qc_sum fold_right fold_left List.length];
    apply Qc_eq_bool_iff;
    rewrite ?Qcdiv_one, ?Qcplus_0_r; reflexivity.
Qed.

Lemma infer_Numeric_inv (v : value) :
  infer parse_date [v] = Numeric -> is_number v = true.
Proof.
  destruct v; unfold infer; simpl; try discriminate; auto.
  destruct (parse_date s); discriminate.
Qed.

Lemma infer_Datetime_inv (v : value) :
  infer parse_date [v] = Datetime ->
  exists s d, v = VStr s /\ parse_date s = Some d.
Proof.
  destruct v; unfold infer; simpl; try discriminate.
  destruct (parse_date s) as [d|] eqn:E; [eauto | discriminate].
Qed.

Lemma typed_attributes_In (t : ltype) (skip : list nat) (df : DataFrame)
    (attr : string) (pos : nat) :
  In (attr, pos) (typed_attributes parse_date t skip df) ->
  In (attr, pos) (enumerate 0 (columns df)) /\
  infer parse_date (column_at df pos) = t.
Proof.
  unfold typed_attributes. intros H. apply filter_In in H.
  destruct H as [Hin H]. split; [exact Hin|].
  apply andb_true_iff in H. destruct H as [_ H]. simpl in H.
  destruct (infer parse_date (column_at df pos)), t; try discriminate; reflexivity.
Qed.

(** Where a feature of an ancestor comes from. *)
Lemma link_features_In (tgt : entity) (num : list (string * nat)) (l : link)
    (f : feature) :
  In f (link_features parse_date tgt num l) ->
  f = FCount l (e_name tgt)
  \/ (exists a attr pos, f = FAgg l a (e_name tgt) attr pos /\ In (attr, pos) num)
  \/ (exists p attr pos,
        f = FDatePart l p attr pos /\
        In (attr, pos)
           (typed_attributes parse_date Datetime [l_parent_key l] (e_df (l_parent l)))).
Proof.
  unfold link_features. intros [<-|H]; [now left|].
  apply in_app_or in H. destruct H as [H|H];
    apply in_flat_map in H; destruct H as ([attr pos] & Hap & H);
    apply in_map_iff in H; destruct H as (x & <- & _).
  - right. left. exists x, attr, pos. auto.
  - right. right. exists x, attr, pos. auto.
Qed.

Lemma field_present (data : list (string * value)) (c : string) :
  In c (map fst data) -> exists v, field c data = Some v.
Proof.
  induction data as [|[k v] data IH]; simpl; [easy|].
  intros H. destruct (String.eqb_spec c k) as [->|Hne]; [eauto|].
  destruct H as [H|H]; [congruence | auto].
Qed.

Section SingleRecordSuccess.

Variables cid c1 c2 c3 c4 c5 c6 c7 pid p1 p2 p3 oid odate sd sm
          sales qty disc profit : value.

Let t0 : tables :=
  {| customers_df := mkDF customer_columns [[cid; c1; c2; c3; c4; c5; c6; c7]];
     products_df := mkDF product_columns [[pid; p1; p2; p3]];
     orders_df := mkDF order_columns [[oid; odate; sd; sm]];
     orderDetails_df :=
       mkDF (orderDetail_columns ++ ["OrderDetail ID"])
            [[oid; pid; cid; sales; qty; disc; profit;
              VStr (join_key float_repr oid pid)]] |}.

(** The entity set is only built when the three identifiers are present. *)
Lemma entityset_needs_identifiers (es : EntitySet) :
  build_entityset t0 = Ok es ->
  is_null cid = false /\ is_null pid = false /\ is_null oid = false.
Proof.
  unfold build_entityset, add_dataframe.
  cbn -[join_key is_null].
  destruct (is_null cid); [discriminate|]. cbn -[join_key is_null].
  destruct (is_null pid); [discriminate|]. cbn -[join_key is_null].
  destruct (is_null oid); [discriminate|]. auto.
Qed.

Let lc0 : link := mkLink (mkEntity "Customers" (customers_df t0) "Customer ID") 0 2.
Let lp0 : link := mkLink (mkEntity "Products" (products_df t0) "Product ID") 0 1.
Let lo0 : link := mkLink (mkEntity "Orders" (orders_df t0) "Order ID") 0 0.
Let target0 : entity :=
  mkEntity "OrderDetails" (orderDetails_df t0) "OrderDetail ID".
Let numeric0 : list (string * nat) :=
  typed_attributes parse_date Numeric [7; 2; 1; 0]%nat (orderDetails_df t0).

Lemma dfs_columns_single (fm : DataFrame) :
  dfs parse_date (entityset_of t0) "OrderDetails" 2 = Ok fm ->
  columns fm
  = "OrderDetail ID"
    :: map feature_name
         (flat_map (link_features parse_date target0 numeric0) [lc0; lp0; lo0]).
Proof.
  unfold dfs.
  cbn -[typed_attributes link_features target_value feature_name join_key].
  intros H. inversion H. reflexivity.
Qed.

Ltac feature_cases Hn :=
  apply in_map_iff in Hn; destruct Hn as (f & Hname & Hf);
  apply in_flat_map in Hf; destruct Hf as (l & Hl & Hf);
  apply link_features_In in Hf;
  destruct Hf as [->|[(a & attr & pos & -> & Hin)|(p & attr & pos & -> & Hin)]];
  [ destruct Hl as [<-|[<-|[<-|[]]]]; discriminate Hname
  | apply typed_attributes_In in Hin; destruct Hin as [Henum Hinfer];
    cbn in Henum;
    repeat (destruct Henum as [Henum|Henum];
            [inversion Henum; subst attr pos; clear Henum|]);
    try contradiction;
    destruct Hl as [<-|[<-|[<-|[]]]]; destruct a; try discriminate Hname
  | apply typed_attributes_In in Hin; destruct Hin as [Henum Hinfer];
    destruct Hl as [<-|[<-|[<-|[]]]];
    cbn in Henum;
    repeat (destruct Henum as [Henum|Henum];
            [inversion Henum; subst attr pos; clear Henum|]);
    try contradiction;
    destruct p; try discriminate Hname ].

(** The selection of line 68 only finds its twelve columns when the four
    measures are numbers and the order date is a date. *)
Lemma selected_features_need_types :
  incl selected_features
       (map feature_name
          (flat_map (link_features parse_date target0 numeric0) [lc0; lp0; lo0])) ->
  is_number sales = true /\ is_number qty = true /\
  is_number disc = true /\ is_number profit = true /\
  exists s d, odate = VStr s /\ parse_date s = Some d.
Proof.
  intros Hincl.
  assert (Hs := Hincl "Products.SUM(OrderDetails.Sales)").
  assert (Hq := Hincl "Products.SUM(OrderDetails.Quantity)").
  assert (Hd := Hincl "Products.MEAN(OrderDetails.Discount)").
  assert (Hp := Hincl "Products.MAX(OrderDetails.Profit)").
  assert (Hm := Hincl "Orders.MONTH(Order Date)").
  clear Hincl.
  repeat split.
  - assert (Hn := Hs ltac:(unfold selected_features; repeat first [left; reflexivity | right])). clear Hs Hq Hd Hp Hm.
    feature_cases Hn. apply infer_Numeric_inv. exact Hinfer.
  - assert (Hn := Hq ltac:(unfold selected_features; repeat first [left; reflexivity | right])). clear Hs Hq Hd Hp Hm.
    feature_cases Hn. apply infer_Numeric_inv. exact Hinfer.
  - assert (Hn := Hd ltac:(unfold selected_features; repeat first [left; reflexivity | right])). clear Hs Hq Hd Hp Hm.
    feature_cases Hn. apply infer_Numeric_inv. exact Hinfer.
  - assert (Hn := Hp ltac:(unfold selected_features; repeat first [left; reflexivity | right])). clear Hs Hq Hd Hp Hm.
    feature_cases Hn. apply infer_Numeric_inv. exact Hinfer.
  - assert (Hn := Hm ltac:(unfold selected_features; repeat first [left; reflexivity | right])). clear Hs Hq Hd Hp Hm.
    feature_cases Hn. apply infer_Datetime_inv. exact Hinfer.
Qed.

Lemma select_features_needs_types (sel : DataFrame) :
  select_features parse_date (entityset_of t0) = Ok sel ->
  is_number sales = true /\ is_number qty = true /\
  is_number disc = true /\ is_number profit = true /\
  exists s d, odate = VStr s /\ parse_date s = Some d.
Proof.
  unfold select_features.
  destruct (dfs parse_date (entityset_of t0) "OrderDetails" 2) as [fm|] eqn:Hdfs;
    [|discriminate].
  apply dfs_columns_single in Hdfs. cbn [bind]. unfold select_columns.
  rewrite Hdfs.
  destruct (positions _ _) as [ps|] eqn:Hps; [|discriminate]. intros _.
  apply positions_incl in Hps.
  apply selected_features_need_types.
  intros n Hn.
  assert (Hin := Hps n (or_intror Hn)).
  destruct Hin as [<-|Hin]; [|exact Hin].
  exfalso. revert Hn. apply index_of_None. reflexivity.
Qed.

End SingleRecordSuccess.

Section SingleRecord.

Variables cid c1 c2 c3 c4 c5 c6 c7 pid p1 p2 p3 oid sd sm sales qty disc profit : value.
Variable odate : string.
Variable d : date.

Hypothesis Hcid : is_null cid = false.
Hypothesis Hpid : is_null pid = false.
Hypothesis Hoid : is_null oid = false.
Hypothesis Hdate : parse_date odate = Some d.
Hypothesis Hsales : is_number sales = true.
Hypothesis Hqty : is_number qty = true.
Hypothesis Hdisc : is_number disc = true.
Hypothesis Hprofit : is_number profit = true.

Let t1 : tables :=
  {| customers_df := mkDF customer_columns [[cid; c1; c2; c3; c4; c5; c6; c7]];
     products_df := mkDF product_columns [[pid; p1; p2; p3]];
     orders_df := mkDF order_columns [[oid; VStr odate; sd; sm]];
     orderDetails_df :=
       mkDF (orderDetail_columns ++ ["OrderDetail ID"])
            [[oid; pid; cid; sales; qty; disc; profit;
              VStr (join_key float_repr oid pid)]] |}.

Lemma entityset_single : build_entityset t1 = Ok (entityset_of t1).
Proof.
  unfold build_entityset, add_dataframe.
  cbn -[join_key is_null]. rewrite Hcid.
  cbn -[join_key is_null]. rewrite Hpid.
  cbn -[join_key is_null]. rewrite Hoid.
  reflexivity.
Qed.

Let lc : link := mkLink (mkEntity "Customers" (customers_df t1) "Customer ID") 0 2.
Let lp : link := mkLink (mkEntity "Products" (products_df t1) "Product ID") 0 1.
Let lo : link := mkLink (mkEntity "Orders" (orders_df t1) "Order ID") 0 0.
Let target : entity := mkEntity "OrderDetails" (orderDetails_df t1) "OrderDetail ID".
Let numeric : list (string * nat) :=
  [("Sales", 3%nat); ("Quantity", 4%nat); ("Discount", 5%nat); ("Profit", 6%nat)].

Lemma numeric_single :
  typed_attributes parse_date Numeric [7; 2; 1; 0]%nat (orderDetails_df t1) = numeric.
Proof.
  unfold typed_attributes. cbn -[infer].
  rewrite !infer_number by assumption. reflexivity.
Qed.

Lemma dfs_single :
  dfs parse_date (entityset_of t1) "OrderDetails" 2
  = Ok {| columns := "OrderDetail ID"
                     :: map feature_name
                          (flat_map (link_features parse_date target numeric)
                                    [lc; lp; lo]);
          rows := [ VStr (join_key float_repr oid pid)
                    :: map (fun f => target_value parse_date
                                       (rows (orderDetails_df t1)) f
                                       [oid; pid; cid; sales; qty; disc; profit;
                                        VStr (join_key float_repr oid pid)])
                           (flat_map (link_features parse_date target numeric)
                                     [lc; lp; lo]) ] |}.
Proof.
  unfold dfs.
  cbn -[typed_attributes link_features target_value feature_name join_key].
  pose proof numeric_single as Hn.
  cbn -[typed_attributes] in Hn. rewrite Hn. reflexivity.
Qed.

Lemma order_dates :
  exists more,
    typed_attributes parse_date Datetime [l_parent_key lo] (e_df (l_parent lo))
    = ("Order Date", 1%nat) :: more.
Proof.
  unfold typed_attributes. cbn -[infer].
  rewrite (infer_date _ _ Hdate). cbn -[infer]. eexists. reflexivity.
Qed.

Let selected : list feature :=
  [ FCount lc "OrderDetails";
    FCount lp "OrderDetails"; FAgg lp MAX "OrderDetails" "Profit" 6;
    FAgg lp MEAN "OrderDetails" "Discount" 5;
    FAgg lp SUM "OrderDetails" "Quantity" 4; FAgg lp SUM "OrderDetails" "Sales" 3;
    FCount lo "OrderDetails"; FAgg lo MAX "OrderDetails" "Quantity" 4;
    FAgg lo MEAN "OrderDetails" "Profit" 6; FAgg lo SUM "OrderDetails" "Sales" 3;
    FDatePart lo MONTH "Order Date" 1; FDatePart lo YEAR "Order Date" 1 ].

Lemma selected_found :
  Forall2 (fun n f =>
             String.eqb n "OrderDetail ID" = false /\
             find (fun f' => String.eqb n (feature_name f'))
                  (flat_map (link_features parse_date target numeric) [lc; lp; lo])
             = Some f)
          selected_features selected.
Proof.
  cbn [flat_map].
  assert (Hc : forall b n, Ascii.eqb b "C" = false ->
             find (fun f => String.eqb (String b n) (feature_name f))
                  (link_features parse_date target numeric lc) = None)
    by (intros; now apply find_other_ancestor with (a := "C"%char) (s := "ustomers")).
  assert (Hp : forall b n, Ascii.eqb b "P" = false ->
             find (fun f => String.eqb (String b n) (feature_name f))
                  (link_features parse_date target numeric lp) = None)
    by (intros; now apply find_other_ancestor with (a := "P"%char) (s := "roducts")).
  destruct order_dates as [more Hdates].
  unfold selected_features, selected.
  repeat constructor;
    rewrite find_app; try reflexivity;
    rewrite Hc by reflexivity; rewrite find_app; try reflexivity;
    rewrite Hp by reflexivity; rewrite find_app;
    unfold link_features; rewrite Hdates; reflexivity.
Qed.

Let r1 : row :=
  [oid; pid; cid; sales; qty; disc; profit; VStr (join_key float_repr oid pid)].

Let values : list value :=
  [ VInt 1; VInt 1; aggregate MAX [profit]; aggregate MEAN [disc];
    aggregate SUM [qty]; aggregate SUM [sales]; VInt 1; aggregate MAX [qty];
    aggregate MEAN [profit]; aggregate SUM [sales];
    VInt (month d); VInt (year d) ].

Lemma features_single :
  map (fun f => target_value parse_date [r1] f r1) selected = values.
Proof.
  unfold selected, target_value, parent_of.
  cbn -[value_eqb aggregate join_key].
  rewrite !value_eqb_refl.
  cbn -[value_eqb aggregate join_key].
  rewrite ?value_eqb_refl.
  cbn -[value_eqb aggregate join_key].
  rewrite Hdate. reflexivity.
Qed.

Lemma transform_single (df : DataFrame) :
  normalize float_repr df = Ok t1 ->
  transform float_repr parse_date df
  = Ok {| customers_df := customers_df t1;
          products_df := products_df t1;
          orders_df := orders_df t1;
          orderDetails_df :=
            {| columns := orderDetail_columns ++ feature_columns;
               rows := [firstn 7 r1 ++ values] |} |}.
Proof.
  intros Hn. unfold transform. rewrite Hn. cbn [bind].
  rewrite entityset_single. cbn [bind].
  unfold select_features. rewrite dfs_single. cbn [bind].
  unfold select_columns. cbn [columns rows positions].
  rewrite index_of_head.
  destruct (positions_features _ _ _ "OrderDetail ID" selected_found)
    as (ps & Hps & Hcells).
  rewrite Hps. cbn [bind map].
  change (take_cells (0%nat :: ps) ?r) with (cell r 0 :: take_cells ps r).
  rewrite Hcells.
  change (rows (orderDetails_df t1)) with [r1].
  fold r1. rewrite features_single.
  assert (He := enrich_Ok [r1] (fun _ => values)).
  match goal with
  | |- context [enrich ?a ?b] =>
      replace (enrich a b)
        with (Ok {| columns := orderDetail_columns ++ feature_columns;
                    rows := map (fun l => firstn 7 l ++ values) [r1] |})
  end.
  - reflexivity.
  - symmetry. apply He.
    + intros l [<-|[]]. reflexivity.
    + reflexivity.
    + reflexivity.
Qed.

End SingleRecord.

(** A record that has its twenty fields, identifiers that are present,
    numbers for its four measures and an order date that parses goes through
    the transformation, and its one enriched OrderDetails row pairs the
    labels with these cells: the seven attributes of the record, a count of
    1 for the customer, the product and the order, sums, means and maxima
    that are equal (as numbers) to the attribute they aggregate, and the
    month and year of the order date. *)
Lemma well_typed_record_goes_through (data : list (string * value))
    (cid pid oid sales qty disc profit : value) (odate : string) (d : date) :
  (forall c, In c required_fields -> In c (map fst data)) ->
  field "Customer ID" data = Some cid -> is_null cid = false ->
  field "Product ID" data = Some pid -> is_null pid = false ->
  field "Order ID" data = Some oid -> is_null oid = false ->
  field "Order Date" data = Some (VStr odate) -> parse_date odate = Some d ->
  field "Sales" data = Some sales -> is_number sales = true ->
  field "Quantity" data = Some qty -> is_number qty = true ->
  field "Discount" data = Some disc -> is_number disc = true ->
  field "Profit" data = Some profit -> is_number profit = true ->
  exists t r max_profit mean_discount total_quantity total_sales
         max_quantity mean_profit order_sales,
    transform float_repr parse_date (DataFrame_of_records data) = Ok t /\
    rows (orderDetails_df t) = [r] /\
    combine (columns (orderDetails_df t)) r
    = [ ("Order ID", oid); ("Product ID", pid); ("Customer ID", cid);
        ("Sales", sales); ("Quantity", qty); ("Discount", disc);
        ("Profit", profit);
        ("Customer_Order_Count", VInt 1);
        ("Product_Order_Count", VInt 1);
        ("Product_Max_Profit", max_profit);
        ("Product_Mean_Discount", mean_discount);
        ("Product_Total_Quantity", total_quantity);
        ("Product_Total_Sales", total_sales);
        ("Order_Item_Count", VInt 1);
        ("Order_Max_Quantity", max_quantity);
        ("Order_Mean_Profit", mean_profit);
        ("Order_Total_Sales", order_sales);
        ("Order_Month", VInt (month d)); ("Order_Year", VInt (year d)) ] /\
    value_eqb max_profit profit = true /\
    value_eqb mean_discount disc = true /\
    value_eqb total_quantity qty = true /\
    value_eqb total_sales sales = true /\
    value_eqb max_quantity qty = true /\
    value_eqb mean_profit profit = true /\
    value_eqb order_sales sales = true.
Proof.
  intros Hall Fcid Hcid Fpid Hpid Foid Hoid Fdate Hdate Fsales Hsales
         Fqty Hqty Fdisc Hdisc Fprofit Hprofit.
  destruct (normalize_single data cid pid oid (VStr odate) sales qty disc profit
              Hall Fcid Fpid Foid Fdate Fsales Fqty Fdisc Fprofit)
    as (c1 & c2 & c3 & c4 & c5 & c6 & c7 & p1 & p2 & p3 & sd & sm & Hn).
  eexists _, _, (aggregate MAX [profit]), (aggregate MEAN [disc]),
    (aggregate SUM [qty]), (aggregate SUM [sales]), (aggregate MAX [qty]),
    (aggregate MEAN [profit]), (aggregate SUM [sales]).
  split.
  - eapply (transform_single cid c1 c2 c3 c4 c5 c6 c7 pid p1 p2 p3 oid sd sm
              sales qty disc profit odate d); eauto.
  - cbn [orderDetails_df rows columns].
    split; [reflexivity|]. split; [reflexivity|].
    repeat split; now apply aggregate_single.
Qed.


Lemma normalize_needs_fields (df : DataFrame) (t : tables) :
  normalize float_repr df = Ok t ->
  forall c, In c required_fields -> In c (columns df).
Proof.
  intros Hn c Hc.
  apply normalize_Ok in Hn. destruct Hn as (pc & pp & po & pd & H1 & H2 & H3 & H4 & _).
  apply positions_incl in H1, H2, H3, H4.
  apply required_fields_split in Hc.
  destruct Hc as [H|[H|[H|H]]]; auto.
Qed.

(** What a record must be like for the transformation to succeed. *)
Lemma transform_needs_well_formed (data : list (string * value)) (t : tables) :
  transform float_repr parse_date (DataFrame_of_records data) = Ok t ->
  exists cid pid oid sales qty disc profit odate d,
    (forall c, In c required_fields -> In c (map fst data)) /\
    field "Customer ID" data = Some cid /\ is_null cid = false /\
    field "Product ID" data = Some pid /\ is_null pid = false /\
    field "Order ID" data = Some oid /\ is_null oid = false /\
    field "Sales" data = Some sales /\ is_number sales = true /\
    field "Quantity" data = Some qty /\ is_number qty = true /\
    field "Discount" data = Some disc /\ is_number disc = true /\
    field "Profit" data = Some profit /\ is_number profit = true /\
    field "Order Date" data = Some (VStr odate) /\ parse_date odate = Some d.
Proof.
  intros Ht. unfold transform in Ht.
  destruct (normalize float_repr (DataFrame_of_records data)) as [tn|] eqn:Hn;
    [|discriminate].
  pose proof (normalize_needs_fields _ _ Hn) as Hall.
  cbn [DataFrame_of_records columns] in Hall.
  destruct (field_present data "Customer ID") as [cid Fcid];
    [apply Hall; unfold required_fields; repeat first [left; reflexivity | right]|].
  destruct (field_present data "Product ID") as [pid Fpid];
    [apply Hall; unfold required_fields; repeat first [left; reflexivity | right]|].
  destruct (field_present data "Order ID") as [oid Foid];
    [apply Hall; unfold required_fields; repeat first [left; reflexivity | right]|].
  destruct (field_present data "Order Date") as [odv Fdate];
    [apply Hall; unfold required_fields; repeat first [left; reflexivity | right]|].
  destruct (field_present data "Sales") as [sales Fsales];
    [apply Hall; unfold required_fields; repeat first [left; reflexivity | right]|].
  destruct (field_present data "Quantity") as [qty Fqty];
    [apply Hall; unfold required_fields; repeat first [left; reflexivity | right]|].
  destruct (field_present data "Discount") as [disc Fdisc];
    [apply Hall; unfold required_fields; repeat first [left; reflexivity | right]|].
  destruct (field_present data "Profit") as [profit Fprofit];
    [apply Hall; unfold required_fields; repeat first [left; reflexivity | right]|].
  destruct (normalize_single data cid pid oid odv sales qty disc profit
              Hall Fcid Fpid Foid Fdate Fsales Fqty Fdisc Fprofit)
    as (c1 & c2 & c3 & c4 & c5 & c6 & c7 & p1 & p2 & p3 & sd & sm & Hn').
  rewrite Hn' in Hn. inversion Hn; subst tn; clear Hn. cbn [bind] in Ht.
  destruct (build_entityset _) as [es|] eqn:Hes; [|discriminate].
  destruct (entityset_needs_identifiers _ _ _ _ _ _ _ _ _ _ _ _ _ _ _ _ _ _ _ _ _ Hes)
    as (Hcid & Hpid & Hoid).
  apply build_entityset_Ok in Hes. destruct Hes as [-> _]. cbn [bind] in Ht.
  destruct (select_features parse_date _) as [sel|] eqn:Hsel; [|discriminate].
  destruct (select_features_needs_types _ _ _ _ _ _ _ _ _ _ _ _ _ _ _ _ _ _ _ _ _ Hsel)
    as (Hsales & Hqty & Hdisc & Hprofit & odate & d & -> & Hdate).
  exists cid, pid, oid, sales, qty, disc, profit, odate, d.
  repeat (split; [assumption|]). assumption.
Qed.


(** A record goes through the transformation exactly when it is well
    formed. *)
Lemma goes_through_iff_well_formed (data : list (string * value)) :
  (exists t, transform float_repr parse_date (DataFrame_of_records data) = Ok t)
  <-> well_formed parse_date data = true.
Proof.
  split.
  - intros [t Ht].
    destruct (transform_needs_well_formed data t Ht)
      as (cid & pid & oid & sales & qty & disc & profit & odate & d
          & Hall & Fcid & Hcid & Fpid & Hpid & Foid & Hoid
          & Fs & Hs & Fq & Hq & Fd & Hd & Fp & Hp & Fdate & Hdate).
    unfold well_formed. rewrite !andb_true_iff. repeat split.
    + apply forallb_forall. intros c Hc. apply existsb_exists.
      exists c. split; [now apply Hall | apply String.eqb_refl].
    + cbn [forallb]. rewrite Fcid, Fpid, Foid, Hcid, Hpid, Hoid. reflexivity.
    + cbn [forallb]. rewrite Fs, Fq, Fd, Fp, Hs, Hq, Hd, Hp. reflexivity.
    + rewrite Fdate, Hdate. reflexivity.
  - unfold well_formed. rewrite !andb_true_iff.
    intros [[[Hall Hids] Hnums] Hdate].
    cbn [forallb] in Hids, Hnums.
    rewrite !andb_true_iff in Hids. rewrite !andb_true_iff in Hnums.
    destruct Hids as [Hcid [Hpid [Hoid _]]].
    destruct Hnums as [Hs [Hq [Hd [Hp _]]]].
    destruct (field "Customer ID" data) as [cid|] eqn:Fcid; [|discriminate].
    destruct (field "Product ID" data) as [pid|] eqn:Fpid; [|discriminate].
    destruct (field "Order ID" data) as [oid|] eqn:Foid; [|discriminate].
    destruct (field "Sales" data) as [sales|] eqn:Fs; [|discriminate].
    destruct (field "Quantity" data) as [qty|] eqn:Fq; [|discriminate].
    destruct (field "Discount" data) as [disc|] eqn:Fd; [|discriminate].
    destruct (field "Profit" data) as [profit|] eqn:Fp; [|discriminate].
    destruct (field "Order Date" data) as [[| | | |odate]|] eqn:Fdate;
      try discriminate.
    destruct (parse_date odate) as [d|] eqn:Hparse; [|discriminate].
    apply negb_true_iff in Hcid, Hpid, Hoid.
    destruct (well_typed_record_goes_through data cid pid oid sales qty disc profit
                odate d) as (t & _ & _ & _ & _ & _ & _ & _ & _ & Ht & _); auto.
    + intros c Hc. rewrite forallb_forall in Hall. specialize (Hall c Hc).
      apply existsb_exists in Hall. destruct Hall as (c' & Hin & Heq).
      apply String.eqb_eq in Heq. now subst.
    + exists t. exact Ht.
Qed.

(** A record that is not well formed (a field is absent, an identifier is
    null, a measure is no number or the order date is no date) leaves nothing
    in the warehouse: the transformation raises before the loads, the error
    is printed and the call returns. *)
Lemma ill_formed_record_no_writes (text : string) (data : list (string * value)) :
  well_formed parse_date data = false ->
  exists e,
    ETLpipeline float_repr parse_date sink (Payload text data) initial
    = (Returned, {| log := [LogDecoded text; LogError e]; writes := [] |}).
Proof.
  intros Hwf.
  destruct (transform float_repr parse_date (DataFrame_of_records data))
    as [t|e] eqn:Ht.
  - assert (Hgo : well_formed parse_date data = true)
      by (apply goes_through_iff_well_formed; eauto).
    congruence.
  - exists e.
    unfold ETLpipeline, try_block, process, bindM, printM, liftM.
    rewrite Ht. reflexivity.
Qed.

End Properties.


(** * The theorems on concrete records *)

(** C1: with a warehouse that refuses the Orders table, the Orders and
    OrderDetails writes do not occur and the call still returns normally,
    with Customers and Products already appended; the same outcome as the
    run in which all four tables were written, and as a run on an event
    without data. *)
Lemma returns_normally_after_partial_writes :
  fst (ETLpipeline decimal_repr iso_date (refusing_sink Orders_id)
                   (Payload sample_text sample_record) initial) = Returned /\
  map fst (writes state_after_refusal) = firstn 2 table_ids /\
  fst (ETLpipeline decimal_repr iso_date accepting_sink
                   (Payload sample_text sample_record) initial) = Returned /\
  map fst (writes state_after_sample) = table_ids /\
  ETLpipeline decimal_repr iso_date accepting_sink NoData initial
  = (Returned, {| log := [LogError (KeyError "data")]; writes := [] |}).
Proof. vm_compute. repeat split. Qed.

Lemma ETLpipeline_swallows_errors_witness :
  Returned = Returned /\
  (exists l e, log state_after_refusal = l ++ [LogError e]) /\
  map fst (writes state_after_refusal)
  = firstn (List.length (writes state_after_refusal)) table_ids.
Proof.
  apply (ETLpipeline_swallows_errors decimal_repr iso_date (refusing_sink Orders_id)
           (Payload sample_text sample_record) Returned state_after_refusal).
  - vm_compute. reflexivity.
  - vm_compute. lia.
Defined.

(** C2: a record without "Profit" does not fail with a malformed-record
    error: the [KeyError] is printed and the call returns normally; and a
    record with a number for its ship mode is loaded into all four tables. *)
Lemma missing_field_is_swallowed_and_types_unchecked :
  ETLpipeline decimal_repr iso_date accepting_sink
              (Payload sample_text record_without_profit) initial
  = (Returned, {| log := [LogDecoded sample_text; LogError (KeyError "Profit")];
                  writes := [] |}) /\
  field "Ship Mode" record_with_numeric_ship_mode = Some (VInt 2) /\
  map fst (writes (snd (ETLpipeline decimal_repr iso_date accepting_sink
                          (Payload sample_text record_with_numeric_ship_mode)
                          initial)))
  = table_ids.
Proof. vm_compute. repeat split. Qed.

Lemma missing_field_no_writes_witness :
  exists c', In c' required_fields /\ ~ In c' (map fst record_without_profit) /\
    ETLpipeline decimal_repr iso_date accepting_sink
                (Payload sample_text record_without_profit) initial
    = (Returned, {| log := [LogDecoded sample_text; LogError (KeyError c')];
                    writes := [] |}).
Proof.
  apply (missing_field_no_writes decimal_repr iso_date accepting_sink sample_text
           record_without_profit "Profit").
  - simpl. tauto.
  - apply index_of_None. reflexivity.
Defined.

Lemma join_key_never_persisted_witness :
  ~ In "OrderDetail ID"
       (columns (snd (last (writes state_after_sample) ("", mkDF [] [])))).
Proof.
  apply (join_key_never_persisted decimal_repr iso_date accepting_sink
           (Payload sample_text sample_record) Returned state_after_sample
           (fst (last (writes state_after_sample) ("", mkDF [] [])))).
  - vm_compute. reflexivity.
  - vm_compute. do 3 right. left. reflexivity.
Defined.

(** C4: two different (order ID, product ID) pairs with the same key. *)
Lemma join_key_collision :
  (VStr "A_B", VStr "C") <> (VStr "A", VStr "B_C") /\
  join_key decimal_repr (VStr "A_B") (VStr "C")
  = join_key decimal_repr (VStr "A") (VStr "B_C").
Proof. split; [discriminate | reflexivity]. Qed.

Lemma join_key_injective_without_separator_witness :
  py_str decimal_repr (VInt 17) = py_str decimal_repr (VStr "17") /\
  py_str decimal_repr (VStr "P_1") = py_str decimal_repr (VStr "P_1").
Proof.
  apply (join_key_injective_without_separator decimal_repr
           (VInt 17) (VStr "P_1") (VStr "17") (VStr "P_1")); reflexivity.
Defined.


(** The customer that occurs twice in the batch keeps the name of its first
    record. *)
Example first_name_is_kept :
  map (fun r => (cell r 0, cell r 1)) (rows (customers_df sample_batch_normalized))
  = [ (VStr "CG-12520", VStr "Claire Gute");
      (VStr "DV-13045", VStr "Darrin Van Huff") ].
Proof. reflexivity. Qed.


Lemma mean_of_no_descendants_is_null_witness :
  ancestor_value iso_date (rows (orderDetails_df sample_batch_normalized))
    (FAgg products_link MEAN "OrderDetails" "Discount" 5) unsold_product = VNull /\
  ancestor_value iso_date (rows (orderDetails_df sample_batch_normalized))
    (FCount products_link "OrderDetails") unsold_product = VInt 0 /\
  ancestor_value iso_date (rows (orderDetails_df sample_batch_normalized))
    (FDatePart products_link MONTH "Product Name" 3) unsold_product = VNull.
Proof.
  apply (mean_of_no_descendants_is_null iso_date
           (rows (orderDetails_df sample_batch_normalized)) products_link
           unsold_product "OrderDetails" "Discount" "Product Name" 5 3 MONTH).
  - vm_compute. reflexivity.
  - vm_compute. reflexivity.
Defined.


Lemma single_record_invocation_witness :
  (forall id df, In (id, df) (writes state_after_sample) ->
                 List.length (rows df) = 1%nat) /\
  (forall frame,
     decoded_frame (Payload sample_text sample_record) = Some frame ->
     List.length (rows frame) = 1%nat /\
     forall names subset c c',
       select_columns names frame = Ok c ->
       drop_duplicates subset c = Ok c' -> c' = c).
Proof.
  apply (single_record_invocation decimal_repr iso_date accepting_sink
           (Payload sample_text sample_record) Returned state_after_sample).
  vm_compute. reflexivity.
Defined.


(** The sample record meets the conditions under which a record goes
    through: its order was placed in March 2024. *)
Example sample_record_goes_through :
  exists t, transform decimal_repr iso_date (DataFrame_of_records sample_record)
            = Ok t.
Proof.
  destruct (well_typed_record_goes_through decimal_repr iso_date sample_record
              (VStr "CG-12520") (VStr "FUR-BO-10001798") (VStr "CA-2016-152156")
              (VFloat (Q2Qc (26196 # 100))) (VInt 2) (VInt 0)
              (VFloat (Q2Qc (419136 # 10000))) "2024-03-15" (mkDate 2024 3 15))
    as (t & _ & _ & _ & _ & _ & _ & _ & _ & Ht & _);
    try reflexivity; [intros c Hc; exact Hc | eauto].
Qed.

(** A payload that is a JSON array stops at the first projection. *)
Example array_payload_is_swallowed :
  ETLpipeline decimal_repr iso_date accepting_sink (NotAnObject "[1, 2]") initial
  = (Returned, {| log := [LogDecoded "[1, 2]"; LogError (KeyError "Customer ID")];
                  writes := [] |}).
Proof. reflexivity. Qed.

(** In a batch, two rows whose keys collide stop the registration of the
    OrderDetails table in the entity set. *)
Example colliding_keys_stop_the_batch :
  transform decimal_repr iso_date
    {| columns := map fst sample_record;
       rows := map (map snd)
         [ customer_fields "CG-12520" "Claire Gute" ++ product_fields "C"
             ++ order_fields "A_B" ++ measures 10 1;
           customer_fields "CG-12520" "Claire Gute" ++ product_fields "B_C"
             ++ order_fields "A" ++ measures 20 2 ] |}
  = Err (IndexError "Index column must be unique").
Proof. vm_compute. reflexivity. Qed.

(** * Further properties of the entry point and of the normalizer *)

Lemma loaded_ids_app (l1 l2 : list log_entry) :
  loaded_ids (l1 ++ l2) = loaded_ids l1 ++ loaded_ids l2.
Proof.
  induction l1 as [|[text|id|e] l1 IH]; simpl; auto. now rewrite IH.
Qed.

Lemma loaded_ids_loaded (ids : list string) :
  loaded_ids (map LogLoaded ids) = ids.
Proof.
  induction ids as [|id ids IH]; simpl; auto. now rewrite IH.
Qed.

Section Further.

Variable float_repr : Qc -> string.
Variable parse_date : string -> option date.
Variable sink : string -> DataFrame -> bool.

(** The loads of lines 109-112 stop at the first table that the warehouse
    refuses: [n] tables are loaded, and when [n] is not 4 the error names the
    table at place [n]. *)
Lemma load_tables_stops_at_refusal (t : tables) (st : state) :
  exists n,
    (n <= 4)%nat /\
    load_tables sink t st =
      (if (n =? 4)%nat then Ok tt
       else Err (SinkWriteError (nth n table_ids "")),
       {| log := log st ++ map LogLoaded (firstn n table_ids);
          writes := writes st
                    ++ firstn n (combine table_ids
                                   [customers_df t; products_df t;
                                    orders_df t; orderDetails_df t]) |}) /\
    ((n < 4)%nat ->
     sink (nth n table_ids "")
          (nth n [customers_df t; products_df t; orders_df t; orderDetails_df t]
               (customers_df t)) = false).
Proof.
  unfold load_tables, bindM.
  destruct (load_to_bigquery_cases sink (customers_df t) "Customers" st)
    as [[_ ->]|[H ->]].
  2:{ exists 0%nat. split; [lia|]. split; [|intros _; exact H].
      simpl. rewrite !app_nil_r. destruct st; reflexivity. }
  match goal with |- context [load_to_bigquery sink (products_df t) _ ?s] =>
    destruct (load_to_bigquery_cases sink (products_df t) "Products" s)
      as [[_ ->]|[H ->]] end.
  2:{ exists 1%nat. split; [lia|]. split; [reflexivity | intros _; exact H]. }
  match goal with |- context [load_to_bigquery sink (orders_df t) _ ?s] =>
    destruct (load_to_bigquery_cases sink (orders_df t) "Orders" s)
      as [[_ ->]|[H ->]] end.
  2:{ exists 2%nat. split; [lia|]. split; [|intros _; exact H].
      simpl. rewrite <- !app_assoc. reflexivity. }
  match goal with |- context [load_to_bigquery sink (orderDetails_df t) _ ?s] =>
    destruct (load_to_bigquery_cases sink (orderDetails_df t) "OrderDetails" s)
      as [[_ ->]|[H ->]] end.
  - exists 4%nat. split; [lia|]. split; [|lia].
    simpl. rewrite <- !app_assoc. reflexivity.
  - exists 3%nat. split; [lia|]. split; [|intros _; exact H].
    simpl. rewrite <- !app_assoc. reflexivity.
Qed.

Lemma process_shape (ev : event) (df : DataFrame) (text : string) (st0 : state) :
  decoded_frame ev = Some df ->
  exists st,
    match process float_repr parse_date sink df (print (LogDecoded text) st0) with
    | (Ok _, st') => (Returned, st')
    | (Err e, st') => (Returned, print (LogError e) st')
    end = (Returned, st)
    /\ (stopped_early float_repr parse_date ev st0 st
        \/ reached_loads float_repr parse_date sink ev st0 st).
Proof.
  intros Hf. unfold process, bindM, liftM.
  destruct (transform float_repr parse_date df) as [t|e] eqn:Ht.
  - destruct (load_tables_stops_at_refusal t (print (LogDecoded text) st0))
      as (n & Hn & -> & Hsink).
    destruct n as [|[|[|[|[|n]]]]]; try lia;
      (eexists; split; [reflexivity|];
       right; exists df, text, t; eexists; repeat split;
       [exact Hf | exact Ht | exact Hn | | exact Hsink];
       unfold print; simpl; rewrite <- ?app_assoc; reflexivity).
  - eexists. split; [reflexivity|].
    left. exists [LogDecoded text], e. unfold print. simpl.
    rewrite <- app_assoc. repeat split; eauto.
    intros e' [H|[]]. discriminate H.
Qed.

Lemma ETLpipeline_shape (ev : event) (st0 : state) :
  exists st,
    ETLpipeline float_repr parse_date sink ev st0 = (Returned, st)
    /\ (stopped_early float_repr parse_date ev st0 st
        \/ reached_loads float_repr parse_date sink ev st0 st).
Proof.
  destruct ev as [| |text|text data|text].
  - eexists. split; [reflexivity|].
    left. exists [], (KeyError "data"). repeat split; auto.
  - eexists. split; [reflexivity|].
    left. exists [], DecodeError. repeat split; auto.
  - eexists. split; [reflexivity|].
    left. exists [LogDecoded text], JSONDecodeError.
    unfold print. simpl. rewrite <- app_assoc. repeat split; auto.
    intros e' [H|[]]. discriminate H.
  - exact (process_shape (Payload text data) (DataFrame_of_records data) text st0
                         eq_refl).
  - exact (process_shape (NotAnObject text) unlabelled_frame text st0 eq_refl).
Qed.

Lemma firstn_combine_length {A B : Type} (n : nat) (l : list A) (l' : list B) :
  (n <= List.length l)%nat -> List.length l = List.length l' ->
  List.length (firstn n (combine l l')) = n.
Proof.
  intros Hn Hl. rewrite length_firstn, length_combine. lia.
Qed.

Lemma map_fst_firstn_combine {A B : Type} (n : nat) (l : list A) (l' : list B) :
  List.length l = List.length l' ->
  map fst (firstn n (combine l l')) = firstn n l.
Proof.
  revert l l'. induction n as [|n IH]; intros [|a l] [|b l'] H; simpl in *;
    try reflexivity; try discriminate.
  f_equal. apply IH. now inversion H.
Qed.

(** X1. A call only appends: the lines and the tables that were there
    before it stay, the tables it adds are the first ones of Customers,
    Products, Orders, OrderDetails in that order, each at most once, and the
    lines "Data successfully loaded ..." that it prints name exactly the
    tables it added, in the same order. *)
Theorem invocation_appends_tables_in_order (ev : event) (st0 : state) :
  exists lines new,
    ETLpipeline float_repr parse_date sink ev st0
    = (Returned, {| log := log st0 ++ lines; writes := writes st0 ++ new |}) /\
    (List.length new <= 4)%nat /\
    map fst new = firstn (List.length new) table_ids /\
    loaded_ids lines = map fst new.
Proof.
  destruct (ETLpipeline_shape ev st0) as (st & -> & [H|H]).
  - destruct H as (pre & e & -> & Hpre & _ & _).
    exists (pre ++ [LogError e]), []. rewrite app_nil_r.
    repeat split; simpl; [lia|].
    rewrite loaded_ids_app, Hpre. reflexivity.
  - destruct H as (df & text & t & n & _ & _ & Hn & -> & _).
    eexists _, _. split; [reflexivity|].
    rewrite map_fst_firstn_combine by reflexivity.
    rewrite firstn_combine_length by (simpl; auto).
    repeat split; [exact Hn|].
    cbn [loaded_ids]. rewrite loaded_ids_app, loaded_ids_loaded.
    destruct (n =? 4)%nat; simpl; now rewrite app_nil_r.
Qed.

(** X2. The log of a call holds a line "Error processing message: ..."
    exactly when fewer than four tables were written: a call that writes the
    four tables prints no error, and every other call prints one. *)
Theorem error_line_iff_table_missing (ev : event) :
  (exists e, In (LogError e)
               (log (snd (ETLpipeline float_repr parse_date sink ev initial))))
  <-> (List.length (writes (snd (ETLpipeline float_repr parse_date sink ev initial)))
       < 4)%nat.
Proof.
  destruct (ETLpipeline_shape ev initial) as (st & -> & [H|H]); cbn [snd].
  - destruct H as (pre & e & -> & _ & _ & _). cbn [log writes initial app].
    split; [simpl; lia|]. intros _. exists e.
    apply in_or_app. right. now left.
  - destruct H as (df & text & t & n & _ & _ & Hn & -> & _).
    cbn [log writes initial app].
    rewrite firstn_combine_length by (simpl; auto).
    destruct n as [|[|[|[|[|n]]]]]; try lia; cbn.
    1-4: split; [lia|]; intros _; eexists;
      repeat first [left; reflexivity | right].
    split; [|lia]. intros [e He].
    repeat (destruct He as [He|He]; [discriminate He|]). destruct He.
Qed.

(** X3. Whatever the event, every table that a call writes goes to its own
    table of the dataset under the labels fixed by lines 27-36 and 77-90:
    a field of the record that the projections do not name never reaches
    the warehouse, and neither does a feature under the name the engine gave
    it. *)
Theorem written_tables_have_fixed_schema (ev : event) (st0 : state) :
  exists new,
    writes (snd (ETLpipeline float_repr parse_date sink ev st0))
    = writes st0 ++ new /\
    map (fun w => (fst w, columns (snd w))) new
    = firstn (List.length new) table_schema.
Proof.
  destruct (ETLpipeline_shape ev st0) as (st & -> & [H|H]); cbn [snd].
  - destruct H as (pre & e & -> & _). exists []. cbn [writes].
    now rewrite app_nil_r.
  - destruct H as (df & text & t & n & _ & Ht & Hn & -> & _).
    eexists. split; [reflexivity|].
    rewrite firstn_combine_length by (simpl; auto).
    destruct (transform_Ok float_repr parse_date df t Ht) as (t0 & g & Hnorm & _ & _ & ->).
    destruct (normalize_Ok float_repr df t0 Hnorm)
      as (pc & pp & po & pd & _ & _ & _ & _ & ->).
    destruct n as [|[|[|[|[|n]]]]]; try lia; reflexivity.
Qed.

(** X4. When the transformation went through and fewer than four tables
    were written, the last line of the log is the error of the warehouse for
    the first table that is missing, which is the table that the warehouse
    refused; the tables after it were not tried. *)
Theorem diagnostic_names_first_missing_table (ev : event) (df : DataFrame)
    (t : tables) :
  decoded_frame ev = Some df ->
  transform float_repr parse_date df = Ok t ->
  let st := snd (ETLpipeline float_repr parse_date sink ev initial) in
  let n := List.length (writes st) in
  (n < 4)%nat ->
  last (log st) (LogDecoded "")
  = LogError (SinkWriteError (nth n table_ids "")) /\
  sink (nth n table_ids "")
       (nth n [customers_df t; products_df t; orders_df t; orderDetails_df t]
            (customers_df t)) = false.
Proof.
  intros Hf Ht.
  destruct (ETLpipeline_shape ev initial) as (st & -> & [H|H]); cbn [snd].
  - destruct H as (pre & e & _ & _ & _ & [H|(df' & H & Ht')]).
    + rewrite Hf in H. discriminate H.
    + rewrite Hf in H. inversion H; subst df'. rewrite Ht in Ht'. discriminate Ht'.
  - destruct H as (df' & text & t' & n & Hf' & Ht' & Hn & -> & Hsink).
    rewrite Hf in Hf'. inversion Hf'; subst df'.
    rewrite Ht in Ht'. inversion Ht'; subst t'.
    cbn [log writes initial app].
    rewrite firstn_combine_length by (simpl; auto).
    intros Hlt. split; [|exact (Hsink Hlt)].
    destruct n as [|[|[|[|n]]]]; try lia; reflexivity.
Qed.

(** ** The four projections on a batch *)


Lemma take_cells_all (r : row) :
  List.length r = 4%nat -> take_cells [0; 1; 2; 3]%nat r = r.
Proof.
  destruct r as [|a [|b [|c [|d [|e r]]]]]; try discriminate. reflexivity.
Qed.

Lemma take_cells_length (ps : list nat) (r : row) :
  List.length (take_cells ps r) = List.length ps.
Proof. unfold take_cells. apply length_map. Qed.





(** The tables of the normalizer in terms of the four projections of the
    batch. *)
Lemma normalize_projections (df : DataFrame) (t : tables) :
  normalize float_repr df = Ok t ->
  exists c p o d,
    select_columns customer_columns df = Ok c /\
    select_columns product_columns df = Ok p /\
    select_columns order_columns df = Ok o /\
    select_columns orderDetail_columns df = Ok d /\
    (forall r, In r (rows c) -> List.length r = 8%nat) /\
    (forall r, In r (rows p) -> List.length r = 4%nat) /\
    (forall r, In r (rows o) -> List.length r = 4%nat) /\
    (forall r, In r (rows d) -> List.length r = 7%nat) /\
    rows (customers_df t) = keep_first (take_cells [0%nat]) [] (rows c) /\
    rows (products_df t) = keep_first (take_cells [0%nat]) [] (rows p) /\
    rows (orders_df t) = keep_first (take_cells [0; 1; 2; 3]%nat) [] (rows o) /\
    rows (orderDetails_df t)
    = map (fun r => r ++ [VStr (join_key float_repr (cell r 0) (cell r 1))])
          (keep_first (take_cells [0; 1]%nat) [] (rows d)).
Proof.
  intros Hn.
  destruct (normalize_Ok float_repr df t Hn)
    as (pc & pp & po & pd & Hc & Hp & Ho & Hd & ->).
  unfold select_columns. rewrite Hc, Hp, Ho, Hd. cbn [bind].
  eexists _, _, _, _. repeat (split; [reflexivity|]). cbn [rows].
  assert (Hlen : forall names ps r,
            positions names (columns df) = Ok ps ->
            In r (map (take_cells ps) (rows df)) ->
            List.length r = List.length names).
  { intros names ps r H Hr. apply in_map_iff in Hr. destruct Hr as (x & <- & _).
    rewrite take_cells_length. eapply positions_length; eauto. }
  repeat split; try reflexivity; intros r Hr.
  - exact (Hlen _ _ r Hc Hr).
  - exact (Hlen _ _ r Hp Hr).
  - exact (Hlen _ _ r Ho Hr).
  - exact (Hlen _ _ r Hd Hr).
Qed.



(** X7. The key column of line 37 is built row by row: every OrderDetails
    row of the normalizer has eight cells, and the eighth is the text of its
    own Order ID, an underscore and the text of its own Product ID. *)
Theorem OrderDetail_ID_is_built_row_by_row (df : DataFrame) (t : tables)
    (r : row) :
  normalize float_repr df = Ok t ->
  In r (rows (orderDetails_df t)) ->
  List.length r = 8%nat /\
  cell r 7 = VStr (py_str float_repr (cell r 0) ++ "_"
                   ++ py_str float_repr (cell r 1))%string.
Proof.
  intros Hn Hr.
  destruct (normalize_projections df t Hn)
    as (c & p & o & d & _ & _ & _ & _ & _ & _ & _ & Hlen & _ & _ & _ & Hrows).
  rewrite Hrows in Hr. apply in_map_iff in Hr. destruct Hr as (x & <- & Hx).
  apply keep_first_incl, Hlen in Hx.
  destruct x as [|a [|b [|x2 [|x3 [|x4 [|x5 [|x6 [|x7 x]]]]]]]]; try discriminate.
  split; reflexivity.
Qed.


(** ** The record and the tables *)







(** ** Batches that the entity set takes *)

Lemma distinct_inj {A : Type} (f : A -> value) (l : list A) (a b : A) :
  distinct (map f l) = true -> In a l -> In b l ->
  value_eqb (f a) (f b) = true -> a = b.
Proof.
  induction l as [|c l IH]; simpl; [easy|].
  rewrite andb_true_iff, negb_true_iff. intros [Hc Hl] Ha Hb Hab.
  assert (Hno : forall x, In x l -> value_eqb (f c) (f x) = false).
  { intros x Hx. destruct (value_eqb (f c) (f x)) eqn:E; [|reflexivity].
    rewrite <- Hc. symmetry. apply existsb_exists.
    exists (f x). split; [now apply in_map | assumption]. }
  destruct Ha as [<-|Ha], Hb as [<-|Hb]; auto.
  - rewrite (Hno b Hb) in Hab. discriminate.
  - rewrite value_eqb_sym, (Hno a Ha) in Hab. discriminate.
Qed.

(** A batch only goes through when the Order IDs of the Orders table are
    pairwise different: the registration of line 47 checks it. *)
Lemma transform_registers_orders (df : DataFrame) (t' : tables) :
  transform float_repr parse_date df = Ok t' ->
  distinct (map (fun r => cell r 0) (rows (orders_df t'))) = true.
Proof.
  intros Ht.
  destruct (transform_Ok float_repr parse_date df t' Ht) as (t & g & Hn & _ & _ & ->).
  cbn [orders_df]. unfold transform in Ht. rewrite Hn in Ht. cbn [bind] in Ht.
  destruct (build_entityset t) as [es|] eqn:Hes; [|discriminate]. clear Ht.
  destruct (normalize_Ok float_repr df t Hn) as (pc & pp & po & pd & _ & _ & _ & _ & ->).
  cbn [orders_df rows].
  destruct (distinct (map (fun r => cell r 0)
                          (keep_first (take_cells [0; 1; 2; 3]%nat) []
                                      (map (take_cells po) (rows df))))) eqn:Hd;
    [reflexivity|].
  exfalso.
  unfold build_entityset, add_dataframe, column in Hes.
  cbn [columns rows customers_df products_df orders_df orderDetails_df] in Hes.
  change (index_of "Customer ID" customer_columns) with (Some 0%nat) in Hes.
  change (index_of "Product ID" product_columns) with (Some 0%nat) in Hes.
  change (index_of "Order ID" order_columns) with (Some 0%nat) in Hes.
  cbn [bind] in Hes. rewrite Hd in Hes.
  do 2 (match type of Hes with
        | bind (if ?b then _ else _) _ = _ => destruct b; [discriminate Hes|]
        end;
        match type of Hes with
        | bind (if ?b then _ else _) _ = _ => destruct b; [discriminate Hes|]
        end;
        cbn [bind] in Hes).
  discriminate Hes.
Qed.

(** X11. The Orders table is deduplicated on whole rows (line 33) and
    registered under the index Order ID (line 47), so a batch only goes
    through when every Order ID comes with one set of order attributes: the
    Order IDs of the Orders table that is written are pairwise different, and
    any two rows of the projected batch with the same Order ID agree in all
    four cells. *)
Theorem accepted_batch_has_one_row_per_order (df o : DataFrame) (t : tables) :
  transform float_repr parse_date df = Ok t ->
  select_columns order_columns df = Ok o ->
  ForallOrdPairs (fun r1 r2 => value_eqb (cell r1 0) (cell r2 0) = false)
                 (rows (orders_df t)) /\
  (forall x y, In x (rows o) -> In y (rows o) ->
     value_eqb (cell x 0) (cell y 0) = true -> key_eqb x y = true).
Proof.
  intros Ht Ho.
  pose proof (transform_registers_orders df t Ht) as Hd.
  destruct (transform_Ok float_repr parse_date df t Ht) as (t0 & g & Hn & _ & _ & ->).
  cbn [orders_df] in *.
  destruct (normalize_projections df t0 Hn)
    as (c & p & o' & d & _ & _ & Ho' & _ & _ & _ & Hlen & _ & _ & _ & Hrows & _).
  rewrite Ho in Ho'. inversion Ho'; subst o'. clear Ho'.
  split.
  - clear - Hd. induction (rows (orders_df t0)) as [|a l IH]; [constructor|].
    simpl in Hd. apply andb_true_iff in Hd. destruct Hd as [Ha Hl].
    constructor; [|auto].
    apply Forall_forall. intros b Hb.
    destruct (value_eqb (cell a 0) (cell b 0)) eqn:E; [|reflexivity].
    apply negb_true_iff in Ha. rewrite <- Ha. symmetry.
    apply existsb_exists. exists (cell b 0). split; [|assumption].
    now apply (in_map (fun r => cell r 0)).
  - intros x y Hx Hy Hxy.
    destruct (keep_first_complete (take_cells [0; 1; 2; 3]%nat) [] (rows o) x Hx
                                  eq_refl) as (rx & Hrx & Hkx).
    destruct (keep_first_complete (take_cells [0; 1; 2; 3]%nat) [] (rows o) y Hy
                                  eq_refl) as (ry & Hry & Hky).
    assert (Lx : List.length rx = 4%nat)
      by (apply Hlen; eapply keep_first_incl; eauto).
    assert (Ly : List.length ry = 4%nat)
      by (apply Hlen; eapply keep_first_incl; eauto).
    rewrite !take_cells_all in Hkx, Hky by auto.
    assert (Hhead : forall r r', key_eqb r r' = true -> List.length r = 4%nat ->
                                 List.length r' = 4%nat ->
                                 value_eqb (cell r 0) (cell r' 0) = true).
    { intros [|a r] [|a' r'] H; try discriminate. simpl in H.
      apply andb_true_iff in H. intros _ _. exact (proj1 H). }
    assert (Hsame : rx = ry).
    { rewrite <- Hrows in Hrx, Hry.
      apply (distinct_inj (fun r => cell r 0) (rows (orders_df t0)) rx ry Hd Hrx Hry).
      eapply value_eqb_trans; [apply (Hhead rx x); auto|].
      eapply value_eqb_trans; [exact Hxy|].
      rewrite value_eqb_sym. apply (Hhead ry y); auto. }
    subst ry. eapply key_eqb_trans; [|exact Hky].
    rewrite key_eqb_sym. exact Hkx.
Qed.

(** ** Calls one after the other *)

Lemma load_tables_frame (t : tables) (st : state) :
  load_tables sink t st
  = (fst (load_tables sink t initial),
     {| log := log st ++ log (snd (load_tables sink t initial));
        writes := writes st ++ writes (snd (load_tables sink t initial)) |}).
Proof.
  unfold load_tables, bindM, load_to_bigquery, print. cbn [log writes initial app].
  destruct (sink _ (customers_df t)); cbn [fst snd log writes app];
    [|rewrite !app_nil_r; destruct st; reflexivity].
  destruct (sink _ (products_df t)); cbn [fst snd log writes app];
    [|reflexivity].
  destruct (sink _ (orders_df t)); cbn [fst snd log writes app];
    [|rewrite <- !app_assoc; reflexivity].
  destruct (sink _ (orderDetails_df t)); cbn [fst snd log writes app];
    rewrite <- !app_assoc; reflexivity.
Qed.

(** What a call adds does not depend on what the log and the warehouse held
    before it. *)
Lemma ETLpipeline_frame (ev : event) (st0 : state) :
  ETLpipeline float_repr parse_date sink ev st0
  = (Returned,
     {| log := log st0
               ++ log (snd (ETLpipeline float_repr parse_date sink ev initial));
        writes := writes st0
                  ++ writes (snd (ETLpipeline float_repr parse_date sink ev
                                              initial)) |}).
Proof.
  assert (Hp : forall df text,
            match process float_repr parse_date sink df
                          (print (LogDecoded text) st0) with
            | (Ok _, st') => (Returned, st')
            | (Err e, st') => (Returned, print (LogError e) st')
            end
            = (Returned,
               {| log := log st0
                         ++ log (snd (match process float_repr parse_date sink df
                                              (print (LogDecoded text) initial) with
                                      | (Ok _, st') => (Returned, st')
                                      | (Err e, st') =>
                                          (Returned, print (LogError e) st')
                                      end));
                  writes := writes st0
                         ++ writes (snd (match process float_repr parse_date sink df
                                              (print (LogDecoded text) initial) with
                                      | (Ok _, st') => (Returned, st')
                                      | (Err e, st') =>
                                          (Returned, print (LogError e) st')
                                      end)) |})).
  { intros df text. unfold process, bindM, liftM.
    destruct (transform float_repr parse_date df) as [t|e].
    - rewrite (load_tables_frame t (print (LogDecoded text) st0)),
              (load_tables_frame t (print (LogDecoded text) initial)).
      destruct (fst (load_tables sink t initial)); unfold print;
        cbn [fst snd log writes initial app]; rewrite <- ?app_assoc; reflexivity.
    - unfold print. cbn [fst snd log writes initial app].
      rewrite <- ?app_assoc, app_nil_r. reflexivity. }
  destruct ev as [| |text|text data|text];
    unfold ETLpipeline, try_block, bindM, printM, raiseM.
  - unfold print. cbn. now rewrite app_nil_r.
  - unfold print. cbn. now rewrite app_nil_r.
  - unfold print. cbn. rewrite <- app_assoc, app_nil_r. reflexivity.
  - apply Hp.
  - apply Hp.
Qed.

(** X12. Nothing in a call looks at what the warehouse already holds: when
    the same message is delivered twice to a warehouse that answers alike,
    the second call prints the same lines and appends the same tables once
    more, so the rows of the record are in the warehouse twice. *)
Theorem redelivery_appends_the_tables_again (ev : event) (st0 : state) :
  let once := snd (ETLpipeline float_repr parse_date sink ev initial) in
  let st1 := snd (ETLpipeline float_repr parse_date sink ev st0) in
  let st2 := snd (ETLpipeline float_repr parse_date sink ev st1) in
  log st1 = log st0 ++ log once /\
  writes st1 = writes st0 ++ writes once /\
  log st2 = log st0 ++ log once ++ log once /\
  writes st2 = writes st0 ++ writes once ++ writes once.
Proof.
  cbv zeta.
  rewrite (ETLpipeline_frame ev (snd (ETLpipeline float_repr parse_date sink ev st0))).
  rewrite (ETLpipeline_frame ev st0).
  cbn [snd log writes]. rewrite <- !app_assoc. auto.
Qed.



End Further.

(** * The further properties on concrete records *)

Lemma diagnostic_names_first_missing_table_witness :
  last (log state_after_refusal) (LogDecoded "")
  = LogError (SinkWriteError
                (nth (List.length (writes state_after_refusal)) table_ids "")) /\
  refusing_sink Orders_id
    (nth (List.length (writes state_after_refusal)) table_ids "")
    (nth (List.length (writes state_after_refusal))
         [customers_df sample_record_transformed;
          products_df sample_record_transformed;
          orders_df sample_record_transformed;
          orderDetails_df sample_record_transformed]
         (customers_df sample_record_transformed)) = false.
Proof.
  apply (diagnostic_names_first_missing_table decimal_repr iso_date
           (refusing_sink Orders_id) (Payload sample_text sample_record)
           (DataFrame_of_records sample_record) sample_record_transformed).
  - reflexivity.
  - vm_compute. reflexivity.
  - vm_compute. lia.
Defined.

(** The table that is missing after the refusal is Orders, the third one. *)
Example refused_table_is_named :
  List.length (writes state_after_refusal) = 2%nat /\
  last (log state_after_refusal) (LogDecoded "")
  = LogError (SinkWriteError Orders_id).
Proof. vm_compute. split; reflexivity. Qed.



(** The three records of the batch are three different pairs, although two
    of them share the product and two the order. *)
Example pairs_of_the_batch :
  map (fun r => (cell r 0, cell r 1)) (rows (orderDetails_df sample_batch_normalized))
  = [ (VStr "O-1", VStr "P-1"); (VStr "O-2", VStr "P-1"); (VStr "O-2", VStr "P-2") ].
Proof. vm_compute. reflexivity. Qed.

Lemma OrderDetail_ID_is_built_row_by_row_witness :
  List.length (last (rows (orderDetails_df sample_batch_normalized)) []) = 8%nat /\
  cell (last (rows (orderDetails_df sample_batch_normalized)) []) 7
  = VStr (py_str decimal_repr
            (cell (last (rows (orderDetails_df sample_batch_normalized)) []) 0)
          ++ "_"
          ++ py_str decimal_repr
               (cell (last (rows (orderDetails_df sample_batch_normalized)) []) 1))%string.
Proof.
  apply (OrderDetail_ID_is_built_row_by_row decimal_repr sample_batch
           sample_batch_normalized).
  - vm_compute. reflexivity.
  - vm_compute. do 2 right. left. reflexivity.
Defined.


(** An order that comes with two ship modes keeps both rows in the Orders
    table of the normalizer, and the entity set then refuses the batch. *)
Example order_with_two_ship_modes :
  let batch := {| columns := map fst sample_record;
                  rows := map (map snd)
                              [sample_record; record_with_numeric_ship_mode] |} in
  match normalize decimal_repr batch with
  | Ok t => map (fun r => (cell r 0, cell r 3)) (rows (orders_df t))
  | Err _ => []
  end
  = [ (VStr "CA-2016-152156", VStr "Second Class");
      (VStr "CA-2016-152156", VInt 2) ]
  /\ transform decimal_repr iso_date batch
     = Err (IndexError "Index column must be unique").
Proof. vm_compute. split; reflexivity. Qed.



(** The record with its fields in another order and one field more is
    another record. *)
Example shuffled_record_differs :
  map fst shuffled_record <> map fst sample_record /\
  field "Row ID" shuffled_record = Some (VInt 1) /\
  field "Row ID" sample_record = None.
Proof. vm_compute. repeat split. discriminate. Qed.

Lemma accepted_batch_has_one_row_per_order_witness :
  ForallOrdPairs (fun r1 r2 => value_eqb (cell r1 0) (cell r2 0) = false)
                 (rows (orders_df sample_batch_transformed)) /\
  (forall x y,
     In x (map (take_cells [12; 13; 14; 15]%nat) (rows sample_batch)) ->
     In y (map (take_cells [12; 13; 14; 15]%nat) (rows sample_batch)) ->
     value_eqb (cell x 0) (cell y 0) = true -> key_eqb x y = true).
Proof.
  apply (accepted_batch_has_one_row_per_order decimal_repr iso_date sample_batch
           {| columns := order_columns;
              rows := map (take_cells [12; 13; 14; 15]%nat) (rows sample_batch) |}
           sample_batch_transformed).
  - vm_compute. reflexivity.
  - vm_compute. reflexivity.
Defined.



(** A text where the profit should be has all its fields, and still nothing
    of the record is written. *)
Example text_profit_has_all_fields :
  forallb (fun c => existsb (String.eqb c) (map fst record_with_text_profit))
          required_fields = true /\
  writes (snd (ETLpipeline decimal_repr iso_date accepting_sink
                 (Payload sample_text record_with_text_profit) initial)) = [].
Proof. vm_compute. split; reflexivity. Qed.

(** The sample record delivered twice: eight tables, the four of the record
    and the same four again. *)
Example sample_record_delivered_twice :
  map fst (writes (snd (ETLpipeline decimal_repr iso_date accepting_sink
                          (Payload sample_text sample_record) state_after_sample)))
  = table_ids ++ table_ids.
Proof. vm_compute. reflexivity. Qed.
